(** * simple-drone-control: the vector algebra and the track statistics recorder

    A shallow embedding of [sdc/modules/core/vector.py] (classes [Vector3D]
    and [Rotator3D]) and of [sdc/modules/api/statistics.py] (class
    [TrackStatistics]), followed by the properties of their validation,
    coercion and arithmetic behaviour.

    Conventions of the embedding:
    - a Python [float] is an IEEE-754 binary64 number, here the primitive
      type [float] of the Standard Library, whose operations are specified
      by [SpecFloat] at precision 53 and maximal exponent 1024; all NaNs
      are one value there, so that nothing is said of the sign bit or the
      payload of a NaN;
    - a Python [int] is an unbounded integer, here [Z];
    - a call that may raise returns a [Result]; a method that mutates the
      object it is called on returns the outcome together with the object
      as the call leaves it. *)

From Stdlib Require Import ZArith Bool String List Lia Floats.
From Stdlib Require Import QArith Qreals Reals Lra Machin.
Import ListNotations.

Local Open Scope Z_scope.
Local Open Scope string_scope.

(** ** Exceptions and results *)

(** The exceptions that can leave the modelled methods. [TypeError] and
    [NotImplementedError] are raised by the source itself and carry its
    message; [OverflowError] and [ZeroDivisionError] are raised by the
    interpreter's [float] conversion and arithmetic. *)
Inductive exn : Type :=
| TypeError (msg : string)
| NotImplementedError (msg : string)
| OverflowError (msg : string)
| ZeroDivisionError (msg : string).

Inductive Result (A : Type) : Type :=
| Return (a : A)
| Raise (e : exn).

Arguments Return {A} a.
Arguments Raise {A} e.

Definition bind {A B : Type} (c : Result A) (k : A -> Result B) : Result B :=
  match c with
  | Return a => k a
  | Raise e => Raise e
  end.

Notation "x <- c ;; k" := (bind c (fun x => k))
  (at level 61, c at next level, right associativity).

(** ** Python values *)

(** The two classes of [vector.py]; [Rotator3D] is declared as
    [class Rotator3D(Vector3D)]. *)
Inductive vclass : Type :=
| CVector3D
| CRotator3D.

(** An instance of [Vector3D] or of its subclass: the class of the object
    and the three private attributes written by the component setters. *)
Record vobj : Type := mkV {
  __class__ : vclass;
  _x : float;
  _y : float;
  _z : float
}.

(** The values a caller can pass to the methods: [None], a [bool], an
    [int], a [float], a [str], an instance of one of the vector classes, or
    an instance of some class that is unrelated to all of these (named by
    its [type(...).__name__]).  A [numpy.float64] is a subclass of [float]
    and is identified with the [float] of the same value. *)
Inductive PyVal : Type :=
| PyNone
| PyBool (b : bool)
| PyInt (n : Z)
| PyFloat (f : float)
| PyStr (s : string)
| PyObj (o : vobj)
| PyOther (type_name : string).

Definition class_name (c : vclass) : string :=
  match c with
  | CVector3D => "Vector3D"
  | CRotator3D => "Rotator3D"
  end.

(** [type(value).__name__] *)
Definition type_name (value : PyVal) : string :=
  match value with
  | PyNone => "NoneType"
  | PyBool _ => "bool"
  | PyInt _ => "int"
  | PyFloat _ => "float"
  | PyStr _ => "str"
  | PyObj o => class_name (__class__ o)
  | PyOther n => n
  end.

(** [isinstance(value, (int, float))]: [bool] is a subclass of [int]. *)
Definition isinstance_int_float (value : PyVal) : bool :=
  match value with
  | PyBool _ | PyInt _ | PyFloat _ => true
  | _ => false
  end.

(** [isinstance(value, bool)] *)
Definition isinstance_bool (value : PyVal) : bool :=
  match value with
  | PyBool _ => true
  | _ => false
  end.

(** [isinstance(value, Vector3D)]: every instance of the subclass is one. *)
Definition isinstance_Vector3D (value : PyVal) : bool :=
  match value with
  | PyObj _ => true
  | _ => false
  end.

(** [isinstance(value, Rotator3D)] *)
Definition isinstance_Rotator3D (value : PyVal) : bool :=
  match value with
  | PyObj o => match __class__ o with CRotator3D => true | CVector3D => false end
  | _ => false
  end.

(** ** The interpreter's [float] conversion and arithmetic *)

(** The binary64 number nearest to an integer (ties to even), as a
    specification-level float; an infinity when the integer is out of
    range. *)
Definition round_int (n : Z) : spec_float :=
  binary_normalize prec emax n 0 false.

(** [float(n)] for an [int]: correctly rounded, [OverflowError] when the
    rounded value would exceed the largest binary64 number. *)
Definition float_of_int (n : Z) : Result float :=
  match round_int n with
  | S754_infinity _ => Raise (OverflowError "int too large to convert to float")
  | sf => Return (SF2Prim sf)
  end.

(** [float(value)] on the values that pass [isinstance(value, (int, float))]:
    [True] and [False] become [1.0] and [0.0], an [int] is rounded, a
    [float] is returned as it is.  Every call of [float] in the source sits
    behind that test, so the last branch is never taken from it; it stands
    for the interpreter's refusal of a value that is not a number (the
    parsing of strings by [float] is not modelled). *)
Definition float_ (value : PyVal) : Result float :=
  match value with
  | PyBool b => Return (if b then 1%float else 0%float)
  | PyInt n => float_of_int n
  | PyFloat f => Return f
  | _ => Raise (TypeError "float() argument must be a string or a real number")
  end.

(** [f * other] for a [float] [f] and a numeric [other]: the right operand
    is converted to binary64, then multiplied. *)
Definition float_mul (f : float) (other : PyVal) : Result PyVal :=
  g <- float_ other ;; Return (PyFloat (f * g)%float).

(** [f / other]: as above, with the interpreter's test for a zero divisor. *)
Definition float_truediv (f : float) (other : PyVal) : Result PyVal :=
  g <- float_ other ;;
  if (g =? 0)%float then Raise (ZeroDivisionError "float division by zero")
  else Return (PyFloat (f / g)%float).

(** ** The interpreter's [math.floor], [math.ceil] and [math.trunc] *)

(** These three functions raise [ValueError] on a NaN, an exception the
    rest of the code never raises: their outcome is a number, one of the
    exceptions above, or a [ValueError]. *)
Inductive MathResult (A : Type) : Type :=
| MReturn (a : A)
| MRaise (e : exn)
| MValueError (msg : string).

Arguments MReturn {A} a.
Arguments MRaise {A} e.
Arguments MValueError {A} msg.

Definition mbind {A B : Type} (c : MathResult A) (k : A -> MathResult B)
  : MathResult B :=
  match c with
  | MReturn a => k a
  | MRaise e => MRaise e
  | MValueError msg => MValueError msg
  end.

(** A call of the first kind inside a method of the second kind. *)
Definition lift {A : Type} (c : Result A) : MathResult A :=
  match c with
  | Return a => MReturn a
  | Raise e => MRaise e
  end.

(** The conversion of a [float] to an [int] that the three functions share:
    no integer for a NaN or an infinity, [round_to (+/- m) e] for the finite
    number [+/- m * 2^e]. *)
Definition float_to_int (round_to : bool -> positive -> Z -> Z) (f : float)
  : MathResult Z :=
  match Prim2SF f with
  | S754_nan => MValueError "cannot convert float NaN to integer"
  | S754_infinity _ =>
      MRaise (OverflowError "cannot convert float infinity to integer")
  | S754_zero _ => MReturn 0
  | S754_finite s m e => MReturn (round_to s m e)
  end.

(** [math.floor]: the largest integer below [+/- m * 2^e]; a shift by a
    negative count is the division by a power of two rounded down. *)
Definition math_floor : float -> MathResult Z :=
  float_to_int (fun s m e => Z.shiftl (cond_Zopp s (Zpos m)) e).

(** [math.ceil]: the smallest integer above. *)
Definition math_ceil : float -> MathResult Z :=
  float_to_int (fun s m e => - Z.shiftl (cond_Zopp (negb s) (Zpos m)) e).

(** [math.trunc]: the integer part, rounded towards zero. *)
Definition math_trunc : float -> MathResult Z :=
  float_to_int (fun s m e => cond_Zopp s (Z.shiftl (Zpos m) e)).

(** The truth value of a [float]: every number but the two zeros, a NaN
    included, is true. *)
Definition float_bool (f : float) : bool := negb (f =? 0)%float.

(** [a or b] on two [float]s: the first operand if it is true, the second
    otherwise. *)
Definition float_or (a b : float) : float := if float_bool a then a else b.

(** ** [class Vector3D] *)

Module Vector3D.

(** The object [Vector3D.__new__] hands to [__init__]: no component has
    been assigned yet.  The three setters of [__init__] overwrite the
    place-holders before the constructor returns. *)
Definition alloc (c : vclass) : vobj := mkV c nan nan nan.

(** The property getters. *)
Definition x (self : vobj) : float := _x self.
Definition y (self : vobj) : float := _y self.
Definition z (self : vobj) : float := _z self.

(** The text of the setters' [TypeError] for the component [field]. *)
Definition setter_msg (self : vobj) (field : string) (value : PyVal) : string :=
  "expected type Union[int, float] for"
  ++ " " ++ class_name (__class__ self) ++ "." ++ field ++ " but got"
  ++ " " ++ type_name value ++ " instead".

(** [@x.setter]: validate the kind, then store [float(value)]. *)
Definition x_setter (self : vobj) (value : PyVal) : Result vobj :=
  if negb (isinstance_int_float value) then
    Raise (TypeError (setter_msg self "x" value))
  else
    f <- float_ value ;;
    Return (mkV (__class__ self) f (_y self) (_z self)).

(** [@y.setter] *)
Definition y_setter (self : vobj) (value : PyVal) : Result vobj :=
  if negb (isinstance_int_float value) then
    Raise (TypeError (setter_msg self "y" value))
  else
    f <- float_ value ;;
    Return (mkV (__class__ self) (_x self) f (_z self)).

(** [@z.setter] *)
Definition z_setter (self : vobj) (value : PyVal) : Result vobj :=
  if negb (isinstance_int_float value) then
    Raise (TypeError (setter_msg self "z" value))
  else
    f <- float_ value ;;
    Return (mkV (__class__ self) (_x self) (_y self) f).

(** [Vector3D.__init__]: the three assignments, in this order, each going
    through its setter. *)
Definition __init__ (self : vobj) (x y z : PyVal) : Result vobj :=
  self <- x_setter self x ;;
  self <- y_setter self y ;;
  z_setter self z.

(** The call [Vector3D(x, y, z)]. *)
Definition new (x y z : PyVal) : Result vobj :=
  __init__ (alloc CVector3D) x y z.

Definition __add__ (self other : vobj) : Result vobj :=
  new (PyFloat (x self + x other)%float)
      (PyFloat (y self + y other)%float)
      (PyFloat (z self + z other)%float).

Definition __sub__ (self other : vobj) : Result vobj :=
  new (PyFloat (x self - x other)%float)
      (PyFloat (y self - y other)%float)
      (PyFloat (z self - z other)%float).

Definition __mul__ (self : vobj) (other : PyVal) : Result vobj :=
  if negb (isinstance_int_float other) then
    Raise (TypeError "only scalars are supported for multiplication")
  else
    a <- float_mul (x self) other ;;
    b <- float_mul (y self) other ;;
    c <- float_mul (z self) other ;;
    new a b c.

Definition __rmul__ (self : vobj) (other : PyVal) : Result vobj :=
  if negb (isinstance_int_float other) then
    Raise (TypeError "only scalars are supported for multiplication")
  else
    a <- float_mul (x self) other ;;
    b <- float_mul (y self) other ;;
    c <- float_mul (z self) other ;;
    new a b c.

Definition __truediv__ (self : vobj) (other : PyVal) : Result vobj :=
  if negb (isinstance_int_float other) then
    Raise (TypeError "only scalars are supported for division")
  else
    a <- float_truediv (x self) other ;;
    b <- float_truediv (y self) other ;;
    c <- float_truediv (z self) other ;;
    new a b c.

Section FloatPrimitives.

(** The interpreter's [float.__floordiv__], [float.__mod__] and
    [float.__pow__] on two binary64 numbers.  They are not part of the
    repository and are left open; each may raise ([//] and [%] on a zero
    divisor) and [**] may answer with a value that is not a [float]. *)
Variables float_floordiv float_mod float_pow : float -> float -> Result PyVal.

(** [f op other] for a [float] [f]: the right operand is converted to
    binary64 first, as for [*] and [/]. *)
Definition float_binop (op : float -> float -> Result PyVal)
    (f : float) (other : PyVal) : Result PyVal :=
  g <- float_ other ;; op f g.

Definition __floordiv__ (self : vobj) (other : PyVal) : Result vobj :=
  if negb (isinstance_int_float other) then
    Raise (TypeError "only scalars are supported for division")
  else
    a <- float_binop float_floordiv (x self) other ;;
    b <- float_binop float_floordiv (y self) other ;;
    c <- float_binop float_floordiv (z self) other ;;
    new a b c.

Definition __mod__ (self : vobj) (other : PyVal) : Result vobj :=
  if negb (isinstance_int_float other) then
    Raise (TypeError "only scalars are supported for modulo")
  else
    a <- float_binop float_mod (x self) other ;;
    b <- float_binop float_mod (y self) other ;;
    c <- float_binop float_mod (z self) other ;;
    new a b c.

Definition __pow__ (self : vobj) (other : PyVal) : Result vobj :=
  if negb (isinstance_int_float other) then
    Raise (TypeError "only scalars are supported for exponentiation")
  else
    a <- float_binop float_pow (x self) other ;;
    b <- float_binop float_pow (y self) other ;;
    c <- float_binop float_pow (z self) other ;;
    new a b c.

End FloatPrimitives.

Definition __abs__ (self : vobj) : Result vobj :=
  new (PyFloat (PrimFloat.abs (x self)))
      (PyFloat (PrimFloat.abs (y self)))
      (PyFloat (PrimFloat.abs (z self))).

Definition __neg__ (self : vobj) : Result vobj :=
  new (PyFloat (- x self)%float)
      (PyFloat (- y self)%float)
      (PyFloat (- z self)%float).

(** [+f] on a [float] is [f]. *)
Definition __pos__ (self : vobj) : Result vobj :=
  new (PyFloat (x self))
      (PyFloat (y self))
      (PyFloat (z self)).

(** [__floor__], [__ceil__] and [__trunc__]: the three components are
    converted to [int] one after the other, and the constructor turns the
    integers back into [float]s. *)
Definition __floor__ (self : vobj) : MathResult vobj :=
  mbind (math_floor (x self)) (fun a =>
  mbind (math_floor (y self)) (fun b =>
  mbind (math_floor (z self)) (fun c =>
  lift (new (PyInt a) (PyInt b) (PyInt c))))).

Definition __ceil__ (self : vobj) : MathResult vobj :=
  mbind (math_ceil (x self)) (fun a =>
  mbind (math_ceil (y self)) (fun b =>
  mbind (math_ceil (z self)) (fun c =>
  lift (new (PyInt a) (PyInt b) (PyInt c))))).

Definition __trunc__ (self : vobj) : MathResult vobj :=
  mbind (math_trunc (x self)) (fun a =>
  mbind (math_trunc (y self)) (fun b =>
  mbind (math_trunc (z self)) (fun c =>
  lift (new (PyInt a) (PyInt b) (PyInt c))))).

(** [==] on two [float]s is the IEEE comparison: a NaN differs from
    itself and the two zeros are equal. *)
Definition __eq__ (self other : vobj) : bool :=
  (x self =? x other)%float
  && (y self =? y other)%float
  && (z self =? z other)%float.

Definition __ne__ (self other : vobj) : bool :=
  negb (x self =? x other)%float
  || negb (y self =? y other)%float
  || negb (z self =? z other)%float.

(** The four ordering methods: the body is a single [raise]. *)
Definition __lt__ (self : vobj) (other : PyVal) : Result bool :=
  Raise (NotImplementedError "< operation not supported for Vector3D").

Definition __le__ (self : vobj) (other : PyVal) : Result bool :=
  Raise (NotImplementedError "<= operation not supported for Vector3D").

Definition __gt__ (self : vobj) (other : PyVal) : Result bool :=
  Raise (NotImplementedError "> operation not supported for Vector3D").

Definition __ge__ (self : vobj) (other : PyVal) : Result bool :=
  Raise (NotImplementedError ">= operation not supported for Vector3D").

(** [bool(self.x or self.y or self.z)] *)
Definition __bool__ (self : vobj) : bool :=
  float_bool (float_or (float_or (x self) (y self)) (z self)).

Definition __len__ (self : vobj) : Z := 3.

(** [iter((self.x, self.y, self.z))], as the list of what it yields. *)
Definition __iter__ (self : vobj) : list float := [x self; y self; z self].

End Vector3D.

(** ** [class Rotator3D(Vector3D)] *)

Module Rotator3D.

Section NumPy.

(** [numpy.deg2rad] applied to one Python value.  NumPy is not part of
    the repository: the function is a parameter of the constructor, and
    the properties below state what they need of it. *)
Variable np_deg2rad : PyVal -> Result PyVal.

(** [Rotator3D.__init__]: each argument goes through [np.deg2rad] and then
    through the setter inherited from [Vector3D]. *)
Definition __init__ (self : vobj) (x y z : PyVal) : Result vobj :=
  rx <- np_deg2rad x ;;
  self <- Vector3D.x_setter self rx ;;
  ry <- np_deg2rad y ;;
  self <- Vector3D.y_setter self ry ;;
  rz <- np_deg2rad z ;;
  Vector3D.z_setter self rz.

(** The call [Rotator3D(x, y, z)]. *)
Definition new (x y z : PyVal) : Result vobj :=
  __init__ (Vector3D.alloc CRotator3D) x y z.

End NumPy.

End Rotator3D.

(** ** [class TrackStatistics] *)

(** Modelled from the spec: the track-like collaborator handed to the
    recorder (classes [Track] and [TrackAPI], which are not among the source
    files).  The recorder reads one attribute of it, [waypoints], an ordered
    sequence of [Vector3D]. *)
Record Track : Type := mkTrack {
  waypoints : list vobj
}.

Module TrackStatistics.

(** One logged sample, the tuple [(position, rotation, speed)]. *)
Definition sample : Type := (PyVal * PyVal * PyVal)%type.

(** The private attributes of an instance. *)
Record t : Type := mk {
  _timestep : PyVal;
  _waypoints : list vobj;
  _is_completed : PyVal;
  _distance_to_end : PyVal;
  _data : list sample
}.

(** A method that mutates [self]: the outcome of the call and the object
    as the call leaves it. *)
Definition method (A : Type) : Type := (Result A * t)%type.

(** The object handed to [__init__], no attribute assigned yet. *)
Definition alloc : t := mk PyNone [] PyNone PyNone [].

(** The text of the [TypeError] of the attribute setters and of
    [add_data]; [self.__class__.__name__] is [TrackStatistics]. *)
Definition mismatch_msg (expected member : string) (value : PyVal) : string :=
  "expected type " ++ expected ++ " for"
  ++ " " ++ "TrackStatistics" ++ "." ++ member ++ " but got"
  ++ " " ++ type_name value ++ " instead".

(** The property getters. *)
Definition timestep (self : t) : PyVal := _timestep self.
Definition is_completed (self : t) : PyVal := _is_completed self.
Definition distance_to_end (self : t) : PyVal := _distance_to_end self.
Definition data (self : t) : list sample := _data self.

(** [@timestep.setter]: the value is stored as it was received. *)
Definition timestep_setter (self : t) (value : PyVal) : method unit :=
  if negb (isinstance_int_float value) then
    (Raise (TypeError (mismatch_msg "Union[int, float]" "timestep" value)), self)
  else
    (Return tt,
     mk value (_waypoints self) (_is_completed self)
        (_distance_to_end self) (_data self)).

(** [@is_completed.setter] *)
Definition is_completed_setter (self : t) (value : PyVal) : method unit :=
  if negb (isinstance_bool value) then
    (Raise (TypeError (mismatch_msg "bool" "is_completed" value)), self)
  else
    (Return tt,
     mk (_timestep self) (_waypoints self) value
        (_distance_to_end self) (_data self)).

(** [@distance_to_end.setter]: the value is stored as [float(value)]. *)
Definition distance_to_end_setter (self : t) (value : PyVal) : method unit :=
  if negb (isinstance_int_float value) then
    (Raise (TypeError (mismatch_msg "Union[int, float]" "distance_to_end" value)), self)
  else
    match float_ value with
    | Raise e => (Raise e, self)
    | Return f =>
        (Return tt,
         mk (_timestep self) (_waypoints self) (_is_completed self)
            (PyFloat f) (_data self))
    end.

(** [TrackStatistics.__init__]: [timestep] goes through its setter, the
    other attributes are assigned directly. *)
Definition __init__ (self : t) (track : Track) (timestep : PyVal) : method unit :=
  match timestep_setter self timestep with
  | (Raise e, self) => (Raise e, self)
  | (Return _, self) =>
      (Return tt,
       mk (_timestep self) (waypoints track) (PyBool false) (PyInt 0) [])
  end.

(** The call [TrackStatistics(track, timestep)]. *)
Definition new (track : Track) (timestep : PyVal) : Result t :=
  match __init__ alloc track timestep with
  | (Raise e, _) => Raise e
  | (Return _, self) => Return self
  end.

(** [add_data]: three checks in the order of the source, then
    [self._data.append((position, rotation, speed))]. *)
Definition add_data (self : t) (position rotation speed : PyVal) : method unit :=
  if negb (isinstance_Vector3D position) then
    (Raise (TypeError (mismatch_msg "Vector3D" "add_data" position)), self)
  else if negb (isinstance_Rotator3D rotation) then
    (Raise (TypeError (mismatch_msg "Rotator3D" "add_data" rotation)), self)
  else if negb (isinstance_int_float speed) then
    (Raise (TypeError (mismatch_msg "Union[int, float]" "add_data" speed)), self)
  else
    (Return tt,
     mk (_timestep self) (_waypoints self) (_is_completed self)
        (_distance_to_end self)
        (_data self ++ [(position, rotation, speed)])).

End TrackStatistics.

(** ** Callers of the recorder *)

(** One use of the public interface that can change a recorder: an
    assignment to one of its three settable properties, or [add_data]. *)
Inductive call : Type :=
| SetTimestep (value : PyVal)
| SetIsCompleted (value : PyVal)
| SetDistanceToEnd (value : PyVal)
| AddData (position rotation speed : PyVal).

Definition perform (self : TrackStatistics.t) (c : call)
  : TrackStatistics.method unit :=
  match c with
  | SetTimestep value => TrackStatistics.timestep_setter self value
  | SetIsCompleted value => TrackStatistics.is_completed_setter self value
  | SetDistanceToEnd value => TrackStatistics.distance_to_end_setter self value
  | AddData position rotation speed =>
      TrackStatistics.add_data self position rotation speed
  end.

(** The recorder after a sequence of calls, whether each of them returned
    or raised (a caller may catch the exception and go on). *)
Definition perform_all (self : TrackStatistics.t) (cs : list call)
  : TrackStatistics.t :=
  fold_left (fun self c => snd (perform self c)) cs self.

(** What the attributes of a recorder hold after construction: a number as
    [timestep], a [bool] as [is_completed], the [int] [0] or a [float] as
    [distance_to_end], and samples made of a [Vector3D], a [Rotator3D] and a
    number. *)
Definition sample_ok (smp : TrackStatistics.sample) : bool :=
  let '(position, rotation, speed) := smp in
  isinstance_Vector3D position
  && isinstance_Rotator3D rotation
  && isinstance_int_float speed.

Definition distance_ok (value : PyVal) : bool :=
  match value with
  | PyInt 0 => true
  | PyFloat _ => true
  | _ => false
  end.

(** The call that logs one sample. *)
Definition add_data_call (smp : TrackStatistics.sample) : call :=
  let '(position, rotation, speed) := smp in AddData position rotation speed.

Definition well_typed (self : TrackStatistics.t) : bool :=
  isinstance_int_float (TrackStatistics._timestep self)
  && isinstance_bool (TrackStatistics._is_completed self)
  && distance_ok (TrackStatistics._distance_to_end self)
  && forallb sample_ok (TrackStatistics._data self).

(** ** NumPy's [deg2rad] *)

(** The constant [NPY_PI] as a binary64 number, and the factor [NPY_PI / 180.0]
    by which NumPy's [deg2rad] multiplies. *)
Definition NPY_PI : float := 0x1.921fb54442d18p+1%float.
Definition deg2rad_factor : float := (NPY_PI / 180)%float.

(** What the constructor of [Rotator3D] needs of [numpy.deg2rad]: on a
    Python [int] that fits a 64-bit integer and on a Python [float] it
    answers with the [float64] scalar [x * (NPY_PI / 180.0)], a [float]. *)
Definition deg2rad_on_numbers (np_deg2rad : PyVal -> Result PyVal) : Prop :=
  (forall n : Z,
     - 2 ^ 63 <= n < 2 ^ 63 ->
     np_deg2rad (PyInt n)
     = (f <- float_of_int n ;; Return (PyFloat (f * deg2rad_factor)%float)))
  /\ (forall f : float,
        np_deg2rad (PyFloat f) = Return (PyFloat (f * deg2rad_factor)%float)).

(** One function with this behaviour, used in the examples.  Outside the
    two cases above it follows NumPy in outline only: an [int] from [2^63]
    up to [2^64] is taken as an unsigned 64-bit integer and converted the
    same way, an [int] beyond either range is an object NumPy has no loop
    for, a [bool] gives a [float16] scalar, which is not a [float], and a
    value that is not a number raises [TypeError].  The texts of NumPy's
    messages are not reproduced, and the properties below are stated for
    every function that satisfies [deg2rad_on_numbers], not for this one. *)
Definition np_deg2rad_model (value : PyVal) : Result PyVal :=
  match value with
  | PyInt n =>
      if ((- 2 ^ 63 <=? n) && (n <? 2 ^ 64))%Z then
        f <- float_of_int n ;; Return (PyFloat (f * deg2rad_factor)%float)
      else Raise (TypeError "loop of ufunc does not support argument 0 of type int")
  | PyFloat f => Return (PyFloat (f * deg2rad_factor)%float)
  | PyBool _ => Return (PyOther "float16")
  | _ => Raise (TypeError "ufunc 'deg2rad' not supported for the input types")
  end.

(** A degree value the interface covers, with the binary64 number it
    stands for. *)
Definition degrees (value : PyVal) (f : float) : Prop :=
  match value with
  | PyInt n => - 2 ^ 63 <= n < 2 ^ 63 /\ float_of_int n = Return f
  | PyFloat g => g = f
  | _ => False
  end.

(** ** Exact values of binary64 numbers *)

(** The rational a finite binary64 number denotes. *)
Definition float_value (f : float) : option Q :=
  match Prim2SF f with
  | S754_zero _ => Some 0%Q
  | S754_finite s m e =>
      Some ((if s then -1 else 1) * inject_Z (Zpos m) * Qpower 2 e)%Q
  | _ => None
  end.

(** [f] is finite and within [eps] of the real number [v]. *)
Definition near (f : float) (v eps : R) : Prop :=
  exists q : Q, float_value f = Some q /\ (Rabs (Q2R q - v) < eps)%R.

(** ** The round trip [v1 + v2 - v2 == v1] *)

(** The expression [v1 + v2 - v2 == v1], evaluated left to right. *)
Definition add_sub_round_trip (v1 v2 : vobj) : Result bool :=
  s <- Vector3D.__add__ v1 v2 ;;
  d <- Vector3D.__sub__ s v2 ;;
  Return (Vector3D.__eq__ d v1).

(** The integer of sign [s] and magnitude [q]. *)
Definition sign_Z (s : bool) (q : positive) : Z :=
  if s then Zneg q else Zpos q.

(** The binary64 representation of a non-zero integer of at most 53 bits:
    the magnitude shifted up to a 53-bit mantissa, and the exponent that
    undoes the shift. *)
Definition canon (s : bool) (q : positive) : spec_float :=
  S754_finite s (Z.to_pos (Zpos q * 2 ^ (53 - Zpos (digits2_pos q))))
              (Zpos (digits2_pos q) - 53).

(** The two operands and their sum are integers below [2^53] in magnitude,
    so that each of them is a binary64 number. *)
Definition exact_sum (a b : Z) : Prop :=
  Z.abs a < 2 ^ 53 /\ Z.abs b < 2 ^ 53 /\ Z.abs (a + b) < 2 ^ 53.

(** ** Finite numbers and integer parts *)

(** A specification-level float that is neither a NaN nor an infinity. *)
Definition is_finite_sf (x : spec_float) : bool :=
  match x with
  | S754_zero _ | S754_finite _ _ _ => true
  | _ => false
  end.

(** [math.isfinite(f)] *)
Definition float_finite (f : float) : bool := is_finite_sf (Prim2SF f).

(** The three components of a vector are finite. *)
Definition all_finite (v : vobj) : bool :=
  float_finite (Vector3D.x v)
  && float_finite (Vector3D.y v)
  && float_finite (Vector3D.z v).

(** ** Finite numbers in units of the smallest one *)

(** Every finite binary64 number is a whole number of units of [2^-1074],
    the smallest positive one: the number of units of a
    specification-level float, [None] for an infinity and for a NaN. *)
Definition units_sf (x : spec_float) : option Z :=
  match x with
  | S754_zero _ => Some 0
  | S754_finite s m e => Some (cond_Zopp s (Zpos m) * 2 ^ (e + 1074))
  | _ => None
  end.

Definition float_units (f : float) : option Z := units_sf (Prim2SF f).

(** [a], [b] and the binary64 sum [a + b] are finite, and [a + b] is the
    exact sum of [a] and [b]: the addition neither rounds nor overflows. *)
Definition sum_not_rounded (a b : float) : bool :=
  match float_units a, float_units b, float_units (a + b) with
  | Some ua, Some ub, Some us => (us =? ua + ub)%Z
  | _, _, _ => false
  end.

(** [math.isinf(f)] *)
Definition float_infinite (f : float) : bool :=
  match Prim2SF f with
  | S754_infinity _ => true
  | _ => false
  end.

(** In one coordinate: the sum is not rounded, or the component of the
    first vector is an infinity and that of the second is finite. *)
Definition component_not_rounded (a b : float) : bool :=
  sum_not_rounded a b || (float_infinite a && float_finite b).

(** No component of [v1 + v2] is rounded. *)
Definition sums_not_rounded (v1 v2 : vobj) : bool :=
  component_not_rounded (Vector3D.x v1) (Vector3D.x v2)
  && component_not_rounded (Vector3D.y v1) (Vector3D.y v2)
  && component_not_rounded (Vector3D.z v1) (Vector3D.z v2).

(** [math.isnan(f)] *)
Definition float_nan (f : float) : bool :=
  match Prim2SF f with
  | S754_nan => true
  | _ => false
  end.

(** In one coordinate: the component of the first vector is a NaN, or that
    of the second is an infinity or a NaN. *)
Definition component_lost (a b : float) : bool :=
  float_nan a || negb (float_finite b).

Definition some_component_lost (v1 v2 : vobj) : bool :=
  component_lost (Vector3D.x v1) (Vector3D.x v2)
  || component_lost (Vector3D.y v1) (Vector3D.y v2)
  || component_lost (Vector3D.z v1) (Vector3D.z v2).

(** Two [float]s that are both a NaN, or are the same number with the same
    sign.  The embedding has one NaN: the sign bit and the payload of a NaN,
    which Python exposes through [math.copysign] only, are not modelled, and
    nothing is stated about them. *)
Definition same_float (a b : float) : Prop :=
  (a = nan /\ b = nan) \/ (a <> nan /\ b <> nan /\ a = b).

(** Two vectors of the same class whose components are the same in that
    sense. *)
Definition same_vector (v w : vobj) : Prop :=
  __class__ v = __class__ w
  /\ same_float (Vector3D.x v) (Vector3D.x w)
  /\ same_float (Vector3D.y v) (Vector3D.y w)
  /\ same_float (Vector3D.z v) (Vector3D.z w).

(** The [Vector3D] with the components of [v]. *)
Definition copy (v : vobj) : vobj :=
  mkV CVector3D (Vector3D.x v) (Vector3D.y v) (Vector3D.z v).

(** The common shape of [__floor__], [__ceil__] and [__trunc__], for the
    conversion [round_to]. *)
Definition round_components (round_to : bool -> positive -> Z -> Z)
    (self : vobj) : MathResult vobj :=
  mbind (float_to_int round_to (Vector3D.x self)) (fun a =>
  mbind (float_to_int round_to (Vector3D.y self)) (fun b =>
  mbind (float_to_int round_to (Vector3D.z self)) (fun c =>
  lift (Vector3D.new (PyInt a) (PyInt b) (PyInt c))))).

(** What [math.floor], [math.ceil] and [math.trunc] have in common: on a
    number with a non-negative exponent, which is an integer, they return
    that integer; on a number with a negative exponent they return an
    integer about the size of the number; on an integer written with a
    negative exponent they return that integer. *)
Definition integer_part (round_to : bool -> positive -> Z -> Z) : Prop :=
  (forall s m e, 0 <= e -> round_to s m e = cond_Zopp s (Zpos m) * 2 ^ e)
  /\ (forall s m e, e < 0 -> Z.abs (round_to s m e) <= Zpos m / 2 ^ (- e) + 1)
  /\ (forall s q j,
        0 <= j ->
        round_to s (Z.to_pos (Zpos q * 2 ^ j)) (- j) = cond_Zopp s (Zpos q)).

(** ** Values used in the examples *)

(** A recorder over a three-waypoint track, nothing logged. *)
Definition stats0 : TrackStatistics.t :=
  TrackStatistics.mk (PyFloat 0.5)
    [mkV CVector3D 0 0 0; mkV CVector3D 1 1 1; mkV CVector3D 2 2 2]
    (PyBool false) (PyInt 0) [].

Definition origin : vobj := mkV CVector3D 0 0 0.
Definition level : vobj := mkV CRotator3D 0 0 0.

(** Two samples that pass the checks of [add_data]. *)
Definition two_samples : list TrackStatistics.sample :=
  [(PyObj (mkV CVector3D 0 0 0), PyObj (mkV CRotator3D 0 0 0), PyInt 5);
   (PyObj (mkV CVector3D 1 1 1), PyObj (mkV CRotator3D 0 1 0), PyInt 7)].


(** * Properties *)

(** ** The [float] conversion *)

(** [float_] answers with a number only on the values that pass the
    numeric check. *)
Lemma float_numeric :
  forall value f, float_ value = Return f -> isinstance_int_float value = true.
Proof.
  intros [ | b | n | g | s | o | t ] f; cbn; congruence.
Qed.

(** The conversion of a [float] and of a [bool]. *)
Lemma float_of_float : forall f, float_ (PyFloat f) = Return f.
Proof. reflexivity. Qed.

Lemma float_of_bool :
  forall b, float_ (PyBool b) = Return (if b then 1%float else 0%float).
Proof. reflexivity. Qed.

(** ** Ordering is unsupported *)

(** C1. For every instance [self] of [Vector3D] or of [Rotator3D] and every
    operand [other], each of the four ordering methods raises
    [NotImplementedError] with the text naming the operation, and none of
    them ever returns a boolean. *)
Theorem ordering_always_unsupported :
  forall (self : vobj) (other : PyVal),
    Vector3D.__lt__ self other
      = Raise (NotImplementedError "< operation not supported for Vector3D")
    /\ Vector3D.__le__ self other
      = Raise (NotImplementedError "<= operation not supported for Vector3D")
    /\ Vector3D.__gt__ self other
      = Raise (NotImplementedError "> operation not supported for Vector3D")
    /\ Vector3D.__ge__ self other
      = Raise (NotImplementedError ">= operation not supported for Vector3D")
    /\ (forall b : bool,
          Vector3D.__lt__ self other <> Return b
          /\ Vector3D.__le__ self other <> Return b
          /\ Vector3D.__gt__ self other <> Return b
          /\ Vector3D.__ge__ self other <> Return b).
Proof.
  intros self other.
  repeat split; try reflexivity; discriminate.
Qed.

(** ** The recorder's log *)

Section AddData.

Import TrackStatistics.

Variable self : t.
Variables position rotation speed : PyVal.

(** A rejected call leaves the object as it found it. *)
Lemma add_data_raise_unchanged :
  forall e self', add_data self position rotation speed = (Raise e, self') ->
                  self' = self.
Proof.
  unfold add_data; intros e self'.
  destruct (isinstance_Vector3D position),
           (isinstance_Rotator3D rotation),
           (isinstance_int_float speed); cbn; congruence.
Qed.

(** An accepted call changes nothing but the log, which grows by one. *)
Lemma add_data_return_length :
  forall self', add_data self position rotation speed = (Return tt, self') ->
                length (data self') = S (length (data self)).
Proof.
  unfold add_data; intros self'.
  destruct (isinstance_Vector3D position),
           (isinstance_Rotator3D rotation),
           (isinstance_int_float speed); cbn; intros H; inversion H.
  unfold data; cbn.
  rewrite length_app; cbn; lia.
Qed.

End AddData.

(** C2. [add_data] checks [position], then [rotation], then [speed].  The
    first check that fails raises the [TypeError] of that check and the
    object, its log included, is exactly what it was; when the three checks
    pass, the call returns and the log is the old log followed by the one
    triple [(position, rotation, speed)], the other attributes being
    untouched. *)
Theorem add_data_checks_in_order :
  forall (self : TrackStatistics.t) (position rotation speed : PyVal),
    (isinstance_Vector3D position = false ->
       TrackStatistics.add_data self position rotation speed
       = (Raise (TypeError
                   (TrackStatistics.mismatch_msg "Vector3D" "add_data" position)),
          self))
    /\ (isinstance_Vector3D position = true ->
        isinstance_Rotator3D rotation = false ->
          TrackStatistics.add_data self position rotation speed
          = (Raise (TypeError
                      (TrackStatistics.mismatch_msg "Rotator3D" "add_data" rotation)),
             self))
    /\ (isinstance_Vector3D position = true ->
        isinstance_Rotator3D rotation = true ->
        isinstance_int_float speed = false ->
          TrackStatistics.add_data self position rotation speed
          = (Raise (TypeError
                      (TrackStatistics.mismatch_msg "Union[int, float]" "add_data" speed)),
             self))
    /\ (isinstance_Vector3D position = true ->
        isinstance_Rotator3D rotation = true ->
        isinstance_int_float speed = true ->
          exists self',
            TrackStatistics.add_data self position rotation speed = (Return tt, self')
            /\ TrackStatistics.data self'
               = (TrackStatistics.data self ++ [(position, rotation, speed)])%list
            /\ length (TrackStatistics.data self')
               = S (length (TrackStatistics.data self))
            /\ TrackStatistics.timestep self' = TrackStatistics.timestep self
            /\ TrackStatistics._waypoints self' = TrackStatistics._waypoints self
            /\ TrackStatistics.is_completed self' = TrackStatistics.is_completed self
            /\ TrackStatistics.distance_to_end self'
               = TrackStatistics.distance_to_end self).
Proof.
  intros self position rotation speed.
  unfold TrackStatistics.add_data.
  repeat split.
  - intros ->; reflexivity.
  - intros -> ->; reflexivity.
  - intros -> -> ->; reflexivity.
  - intros -> -> ->; cbn.
    eexists; split; [reflexivity|].
    unfold TrackStatistics.data; cbn; rewrite length_app; cbn.
    repeat split; lia || reflexivity.
Qed.

Lemma add_data_checks_in_order_witness :
  TrackStatistics.add_data stats0 (PyInt 1) (PyInt 2) (PyInt 3)
  = (Raise (TypeError
      "expected type Vector3D for TrackStatistics.add_data but got int instead"),
     stats0)
  /\ TrackStatistics.add_data stats0 (PyObj origin) (PyObj origin) (PyInt 3)
  = (Raise (TypeError
      "expected type Rotator3D for TrackStatistics.add_data but got Vector3D instead"),
     stats0)
  /\ TrackStatistics.add_data stats0 (PyObj origin) (PyObj level) (PyStr "fast")
  = (Raise (TypeError
      "expected type Union[int, float] for TrackStatistics.add_data but got str instead"),
     stats0)
  /\ (exists self',
        TrackStatistics.add_data stats0 (PyObj origin) (PyObj level) (PyInt 5)
        = (Return tt, self')
        /\ TrackStatistics.data self' = [(PyObj origin, PyObj level, PyInt 5)]).
Proof.
  split; [|split; [|split]].
  - apply (proj1 (add_data_checks_in_order stats0 (PyInt 1) (PyInt 2) (PyInt 3))).
    reflexivity.
  - apply (proj1 (proj2
      (add_data_checks_in_order stats0 (PyObj origin) (PyObj origin) (PyInt 3))));
      reflexivity.
  - apply (proj1 (proj2 (proj2
      (add_data_checks_in_order stats0 (PyObj origin) (PyObj level) (PyStr "fast")))));
      reflexivity.
  - destruct (proj2 (proj2 (proj2
      (add_data_checks_in_order stats0 (PyObj origin) (PyObj level) (PyInt 5))))
      eq_refl eq_refl eq_refl) as (self' & Hcall & Hdata & _).
    exists self'; split; [exact Hcall | exact Hdata].
Defined.

(** ** The completion flag *)

(** C8. The [is_completed] setter stores a boolean as it is; on every other
    value, the integers [0] and [1] among them, it raises the [TypeError]
    naming the attribute and the received type, converts nothing, and
    leaves the object, its flag included, as it was. *)
Theorem is_completed_strict_bool :
  forall (self : TrackStatistics.t),
    (forall b : bool,
       exists self',
         TrackStatistics.is_completed_setter self (PyBool b) = (Return tt, self')
         /\ TrackStatistics.is_completed self' = PyBool b)
    /\ (forall value : PyVal,
          isinstance_bool value = false ->
          TrackStatistics.is_completed_setter self value
          = (Raise (TypeError
                      (TrackStatistics.mismatch_msg "bool" "is_completed" value)),
             self))
    /\ (forall n : Z,
          TrackStatistics.is_completed_setter self (PyInt n)
          = (Raise (TypeError
              "expected type bool for TrackStatistics.is_completed but got int instead"),
             self)).
Proof.
  intros self; split; [|split].
  - intros b; eexists; split; reflexivity.
  - intros value Hv; unfold TrackStatistics.is_completed_setter.
    rewrite Hv; reflexivity.
  - intros n; reflexivity.
Qed.

Lemma is_completed_strict_bool_witness :
  TrackStatistics.is_completed_setter stats0 (PyInt 1)
  = (Raise (TypeError
      "expected type bool for TrackStatistics.is_completed but got int instead"),
     stats0)
  /\ TrackStatistics.is_completed_setter stats0 (PyFloat 0)
  = (Raise (TypeError
      "expected type bool for TrackStatistics.is_completed but got float instead"),
     stats0).
Proof.
  split.
  - apply (proj1 (proj2 (is_completed_strict_bool stats0)) (PyInt 1)); reflexivity.
  - apply (proj1 (proj2 (is_completed_strict_bool stats0)) (PyFloat 0)); reflexivity.
Defined.

(** ** A rotation in the position slot *)

(** Every instance of [Rotator3D] is an instance of [Vector3D]. *)
Lemma Rotator3D_is_Vector3D :
  forall value, isinstance_Rotator3D value = true -> isinstance_Vector3D value = true.
Proof.
  intros [ | | | | | o | ]; cbn; congruence.
Qed.

(** C9. The check of [position] in [add_data] accepts subclasses: with a
    [Rotator3D] as [position], a [Rotator3D] as [rotation] and a numeric
    [speed], the call does not raise and the triple, the rotation in its
    position slot, is appended to the log. *)
Theorem add_data_accepts_rotation_as_position :
  forall (self : TrackStatistics.t) (position rotation speed : PyVal),
    isinstance_Rotator3D position = true ->
    isinstance_Rotator3D rotation = true ->
    isinstance_int_float speed = true ->
    isinstance_Vector3D position = true
    /\ TrackStatistics.add_data self position rotation speed
       = (Return tt,
          TrackStatistics.mk
            (TrackStatistics._timestep self) (TrackStatistics._waypoints self)
            (TrackStatistics._is_completed self)
            (TrackStatistics._distance_to_end self)
            (TrackStatistics._data self ++ [(position, rotation, speed)])).
Proof.
  intros self position rotation speed Hp Hr Hs.
  pose proof (Rotator3D_is_Vector3D position Hp) as Hv.
  split; [exact Hv|].
  unfold TrackStatistics.add_data.
  rewrite Hv, Hr, Hs; reflexivity.
Qed.

Lemma add_data_accepts_rotation_as_position_witness :
  TrackStatistics.data
    (snd (TrackStatistics.add_data stats0
            (PyObj (mkV CRotator3D 1 2 3)) (PyObj level) (PyInt 7)))
  = [(PyObj (mkV CRotator3D 1 2 3), PyObj level, PyInt 7)].
Proof.
  rewrite (proj2 (add_data_accepts_rotation_as_position stats0
             (PyObj (mkV CRotator3D 1 2 3)) (PyObj level) (PyInt 7)
             eq_refl eq_refl eq_refl)).
  reflexivity.
Defined.

(** ** The initial distance *)

(** C10. After construction [distance_to_end] reads back the integer [0]
    that [__init__] assigned to the attribute directly, which is not a
    [float]; a value that was assigned through the setter always reads back
    as a [float]. *)
Theorem distance_to_end_initially_int :
  forall (track : Track) (timestep : PyVal),
    isinstance_int_float timestep = true ->
    (exists self,
       TrackStatistics.new track timestep = Return self
       /\ TrackStatistics.distance_to_end self = PyInt 0
       /\ (forall f : float, TrackStatistics.distance_to_end self <> PyFloat f))
    /\ (forall (self : TrackStatistics.t) (value : PyVal) (f : float),
          float_ value = Return f ->
          exists self',
            TrackStatistics.distance_to_end_setter self value = (Return tt, self')
            /\ TrackStatistics.distance_to_end self' = PyFloat f)
    /\ (forall (self self' : TrackStatistics.t) (value : PyVal),
          TrackStatistics.distance_to_end_setter self value = (Return tt, self') ->
          exists f : float, TrackStatistics.distance_to_end self' = PyFloat f).
Proof.
  intros track timestep Ht; split; [|split].
  - unfold TrackStatistics.new, TrackStatistics.__init__,
      TrackStatistics.timestep_setter.
    rewrite Ht; cbn.
    eexists; split; [reflexivity|].
    split; [reflexivity | intros f; discriminate].
  - intros self value f Hf.
    unfold TrackStatistics.distance_to_end_setter.
    rewrite (float_numeric value f Hf), Hf; cbn.
    eexists; split; reflexivity.
  - intros self self' value.
    unfold TrackStatistics.distance_to_end_setter.
    destruct (isinstance_int_float value); cbn; [|discriminate].
    destruct (float_ value) as [f|e]; [|discriminate].
    intros H; inversion H; subst; cbn.
    exists f; reflexivity.
Qed.

Lemma distance_to_end_initially_int_witness :
  exists self,
    TrackStatistics.new (mkTrack [origin]) (PyFloat 0.5) = Return self
    /\ TrackStatistics.distance_to_end self = PyInt 0.
Proof.
  destruct (proj1 (distance_to_end_initially_int
                     (mkTrack [origin]) (PyFloat 0.5) eq_refl))
    as (self & Hnew & Hd & _).
  exists self; split; [exact Hnew | exact Hd].
Defined.

(** ** Construction of a vector *)

Section Construction.

Variables a b c : PyVal.

(** The three setters of [__init__] overwrite whatever the object held. *)
Lemma init_returns :
  forall (self : vobj) (fa fb fc : float),
    float_ a = Return fa -> float_ b = Return fb -> float_ c = Return fc ->
    Vector3D.__init__ self a b c = Return (mkV (__class__ self) fa fb fc).
Proof.
  intros self fa fb fc Ha Hb Hc.
  unfold Vector3D.__init__, Vector3D.x_setter, Vector3D.y_setter,
    Vector3D.z_setter.
  rewrite (float_numeric a fa Ha), Ha; cbn.
  rewrite (float_numeric b fb Hb), Hb; cbn.
  rewrite (float_numeric c fc Hc), Hc; reflexivity.
Qed.

Lemma init_rejects_x :
  forall self : vobj,
    isinstance_int_float a = false ->
    Vector3D.__init__ self a b c
    = Raise (TypeError (Vector3D.setter_msg self "x" a)).
Proof.
  intros self Ha; unfold Vector3D.__init__, Vector3D.x_setter.
  rewrite Ha; reflexivity.
Qed.

Lemma init_rejects_y :
  forall (self : vobj) (fa : float),
    float_ a = Return fa ->
    isinstance_int_float b = false ->
    Vector3D.__init__ self a b c
    = Raise (TypeError (Vector3D.setter_msg self "y" b)).
Proof.
  intros self fa Ha Hb.
  unfold Vector3D.__init__, Vector3D.x_setter, Vector3D.y_setter.
  rewrite (float_numeric a fa Ha), Ha; cbn.
  rewrite Hb; reflexivity.
Qed.

Lemma init_rejects_z :
  forall (self : vobj) (fa fb : float),
    float_ a = Return fa -> float_ b = Return fb ->
    isinstance_int_float c = false ->
    Vector3D.__init__ self a b c
    = Raise (TypeError (Vector3D.setter_msg self "z" c)).
Proof.
  intros self fa fb Ha Hb Hc.
  unfold Vector3D.__init__, Vector3D.x_setter, Vector3D.y_setter,
    Vector3D.z_setter.
  rewrite (float_numeric a fa Ha), Ha; cbn.
  rewrite (float_numeric b fb Hb), Hb; cbn.
  rewrite Hc; reflexivity.
Qed.

End Construction.

(** C3, as the code has it.  When [float(a)], [float(b)] and [float(c)] are
    defined (as they are for every [float], every [bool] and every [int]
    that rounds to a finite binary64 number), [Vector3D(a, b, c)] succeeds and
    its components read back exactly these three numbers.  When the first
    component that is not an [int] or a [float] comes after components whose
    conversion is defined, the construction raises the [TypeError] that
    names this component and the type received. *)
Theorem construction_reads_back_float :
  forall a b c : PyVal,
    (forall fa fb fc : float,
       float_ a = Return fa -> float_ b = Return fb -> float_ c = Return fc ->
       exists v : vobj,
         Vector3D.new a b c = Return v
         /\ __class__ v = CVector3D
         /\ Vector3D.x v = fa /\ Vector3D.y v = fb /\ Vector3D.z v = fc)
    /\ (isinstance_int_float a = false ->
        Vector3D.new a b c
        = Raise (TypeError
            ("expected type Union[int, float] for Vector3D.x but got "
             ++ type_name a ++ " instead")))
    /\ (forall fa : float,
          float_ a = Return fa ->
          isinstance_int_float b = false ->
          Vector3D.new a b c
          = Raise (TypeError
              ("expected type Union[int, float] for Vector3D.y but got "
               ++ type_name b ++ " instead")))
    /\ (forall fa fb : float,
          float_ a = Return fa -> float_ b = Return fb ->
          isinstance_int_float c = false ->
          Vector3D.new a b c
          = Raise (TypeError
              ("expected type Union[int, float] for Vector3D.z but got "
               ++ type_name c ++ " instead"))).
Proof.
  intros a b c; unfold Vector3D.new; repeat split.
  - intros fa fb fc Ha Hb Hc.
    rewrite (init_returns a b c _ fa fb fc Ha Hb Hc).
    eexists; repeat split.
  - intros Ha; rewrite (init_rejects_x a b c _ Ha); reflexivity.
  - intros fa Ha Hb; rewrite (init_rejects_y a b c _ fa Ha Hb); reflexivity.
  - intros fa fb Ha Hb Hc.
    rewrite (init_rejects_z a b c _ fa fb Ha Hb Hc); reflexivity.
Qed.

Lemma construction_reads_back_float_witness :
  (exists v : vobj,
     Vector3D.new (PyInt 3) (PyFloat 0.5) (PyBool true) = Return v
     /\ Vector3D.x v = 3%float /\ Vector3D.y v = 0.5%float /\ Vector3D.z v = 1%float)
  /\ Vector3D.new (PyStr "1") (PyInt 2) (PyInt 3)
     = Raise (TypeError
         "expected type Union[int, float] for Vector3D.x but got str instead")
  /\ Vector3D.new (PyInt 1) PyNone (PyInt 3)
     = Raise (TypeError
         "expected type Union[int, float] for Vector3D.y but got NoneType instead")
  /\ Vector3D.new (PyInt 1) (PyInt 2) (PyObj origin)
     = Raise (TypeError
         "expected type Union[int, float] for Vector3D.z but got Vector3D instead").
Proof.
  split; [|split; [|split]].
  - destruct (proj1 (construction_reads_back_float
                       (PyInt 3) (PyFloat 0.5) (PyBool true))
                    3%float 0.5%float 1%float eq_refl eq_refl eq_refl)
      as (v & Hv & _ & Hx & Hy & Hz).
    exists v; repeat split; assumption.
  - apply (proj1 (proj2 (construction_reads_back_float
                           (PyStr "1") (PyInt 2) (PyInt 3)))).
    reflexivity.
  - apply (proj1 (proj2 (proj2 (construction_reads_back_float
                                  (PyInt 1) PyNone (PyInt 3))))
             1%float); reflexivity.
  - apply (proj2 (proj2 (proj2 (construction_reads_back_float
                                  (PyInt 1) (PyInt 2) (PyObj origin))))
             1%float 2%float); reflexivity.
Defined.

(** C3 as stated fails on an integer beyond the binary64 range: the
    component is numeric, yet the construction raises [OverflowError]
    instead of succeeding. *)
Lemma construction_overflow_counterexample :
  isinstance_int_float (PyInt (2 ^ 1024)) = true
  /\ Vector3D.new (PyInt (2 ^ 1024)) (PyInt 0) (PyInt 0)
     = Raise (OverflowError "int too large to convert to float")
  /\ (forall v : vobj,
        Vector3D.new (PyInt (2 ^ 1024)) (PyInt 0) (PyInt 0) <> Return v).
Proof.
  assert (H : Vector3D.new (PyInt (2 ^ 1024)) (PyInt 0) (PyInt 0)
              = Raise (OverflowError "int too large to convert to float"))
    by (vm_compute; reflexivity).
  split; [reflexivity|]; split; [exact H|].
  intros v; rewrite H; discriminate.
Qed.

(** ** Booleans where numbers are expected *)

Section BooleanOperand.

Variable b : bool.
Variable self : vobj.




End BooleanOperand.



(** ** Integers assigned through the setters *)




(** ** The binary64 pi *)

(** Two decimal bounds of pi, from the alternating series of Machin's
    formula [pi/4 = 2 atan(1/3) + atan(1/7)]. *)
Lemma PI_lower : (3141592653589793 / 1000000000000000 < PI)%R.
Proof.
  destruct (PI_2_3_7_ineq 8) as [H _].
  apply Rlt_le_trans
    with (4 * sum_f_R0 (tg_alt PI_2_3_7_tg) (S (2 * 8)))%R; [|lra].
  unfold sum_f_R0, tg_alt, PI_2_3_7_tg, Ratan_seq.
  simpl; lra.
Qed.

Lemma PI_upper : (PI < 3141592653589794 / 1000000000000000)%R.
Proof.
  destruct (PI_2_3_7_ineq 8) as [_ H].
  apply Rle_lt_trans
    with (4 * sum_f_R0 (tg_alt PI_2_3_7_tg) (2 * 8))%R; [lra|].
  unfold sum_f_R0, tg_alt, PI_2_3_7_tg, Ratan_seq.
  simpl; lra.
Qed.

Lemma NPY_PI_near_PI : near NPY_PI PI (1 / 1000000000000000).
Proof.
  eexists; split; [vm_compute; reflexivity|].
  pose proof PI_lower; pose proof PI_upper.
  unfold Q2R; cbn [Qnum Qden].
  apply Rabs_def1; lra.
Qed.

Lemma half_NPY_PI_near_half_PI :
  near (NPY_PI / 2)%float (PI / 2) (1 / 1000000000000000).
Proof.
  eexists; split; [vm_compute; reflexivity|].
  pose proof PI_lower; pose proof PI_upper.
  unfold Q2R; cbn [Qnum Qden].
  apply Rabs_def1; lra.
Qed.

Lemma zero_near_zero : near 0%float 0 (1 / 1000000000000000).
Proof.
  eexists; split; [vm_compute; reflexivity|].
  unfold Q2R; cbn [Qnum Qden].
  apply Rabs_def1; lra.
Qed.

(** ** Construction of a rotation *)

Section RotatorConstruction.

Variable np_deg2rad : PyVal -> Result PyVal.
Hypothesis np_spec : deg2rad_on_numbers np_deg2rad.

(** On a covered degree value [np.deg2rad] answers with a [float], the
    radian value. *)
Lemma deg2rad_degrees :
  forall value f,
    degrees value f ->
    np_deg2rad value = Return (PyFloat (f * deg2rad_factor)%float).
Proof.
  destruct np_spec as [Hint Hfloat].
  intros [ | b | n | g | s | o | t ] f; cbn; try contradiction.
  - intros [Hn Hf]; rewrite (Hint n Hn), Hf; reflexivity.
  - intros ->; apply Hfloat.
Qed.

Lemma rotator_init_returns :
  forall (self : vobj) (a b c : PyVal) (fa fb fc : float),
    degrees a fa -> degrees b fb -> degrees c fc ->
    Rotator3D.__init__ np_deg2rad self a b c
    = Return (mkV (__class__ self)
                (fa * deg2rad_factor)%float
                (fb * deg2rad_factor)%float
                (fc * deg2rad_factor)%float).
Proof.
  intros self a b c fa fb fc Ha Hb Hc.
  unfold Rotator3D.__init__.
  rewrite (deg2rad_degrees a fa Ha), (deg2rad_degrees b fb Hb),
    (deg2rad_degrees c fc Hc).
  reflexivity.
Qed.

(** What [np.deg2rad] returns goes through the validation of the
    inherited setter. *)
Lemma rotator_init_validates :
  forall (self : vobj) (a b c r : PyVal),
    np_deg2rad a = Return r ->
    isinstance_int_float r = false ->
    Rotator3D.__init__ np_deg2rad self a b c
    = Raise (TypeError (Vector3D.setter_msg self "x" r)).
Proof.
  intros self a b c r Ha Hr.
  unfold Rotator3D.__init__, Vector3D.x_setter.
  rewrite Ha; cbn; rewrite Hr; reflexivity.
Qed.

(** When the three conversions return, the constructor is the
    initialisation of a [Vector3D] on the converted values: the same three
    setters, in the same order. *)
Lemma rotator_init_is_vector_init :
  forall (self : vobj) (a b c ra rb rc : PyVal),
    np_deg2rad a = Return ra ->
    np_deg2rad b = Return rb ->
    np_deg2rad c = Return rc ->
    Rotator3D.__init__ np_deg2rad self a b c
    = Vector3D.__init__ self ra rb rc.
Proof.
  intros self a b c ra rb rc Ha Hb Hc.
  unfold Rotator3D.__init__, Vector3D.__init__.
  rewrite Ha; cbn [bind].
  destruct (Vector3D.x_setter self ra) as [s1|e]; cbn [bind]; [|reflexivity].
  rewrite Hb; cbn [bind].
  destruct (Vector3D.y_setter s1 rb) as [s2|e]; cbn [bind]; [|reflexivity].
  rewrite Hc; reflexivity.
Qed.

Lemma rotator_init_validates_y :
  forall (self : vobj) (a b c ra rb : PyVal) (fa : float),
    np_deg2rad a = Return ra -> float_ ra = Return fa ->
    np_deg2rad b = Return rb ->
    isinstance_int_float rb = false ->
    Rotator3D.__init__ np_deg2rad self a b c
    = Raise (TypeError (Vector3D.setter_msg self "y" rb)).
Proof.
  intros self a b c ra rb fa Ha Fa Hb Hr.
  unfold Rotator3D.__init__, Vector3D.x_setter, Vector3D.y_setter.
  rewrite Ha; cbn [bind].
  rewrite (float_numeric ra fa Fa), Fa; cbn.
  rewrite Hb; cbn; rewrite Hr; reflexivity.
Qed.

Lemma rotator_init_validates_z :
  forall (self : vobj) (a b c ra rb rc : PyVal) (fa fb : float),
    np_deg2rad a = Return ra -> float_ ra = Return fa ->
    np_deg2rad b = Return rb -> float_ rb = Return fb ->
    np_deg2rad c = Return rc ->
    isinstance_int_float rc = false ->
    Rotator3D.__init__ np_deg2rad self a b c
    = Raise (TypeError (Vector3D.setter_msg self "z" rc)).
Proof.
  intros self a b c ra rb rc fa fb Ha Fa Hb Fb Hc Hr.
  unfold Rotator3D.__init__, Vector3D.x_setter, Vector3D.y_setter,
    Vector3D.z_setter.
  rewrite Ha; cbn [bind].
  rewrite (float_numeric ra fa Fa), Fa; cbn.
  rewrite Hb; cbn.
  rewrite (float_numeric rb fb Fb), Fb; cbn.
  rewrite Hc; cbn; rewrite Hr; reflexivity.
Qed.

(** A conversion that raises ends the construction with its exception. *)
Lemma rotator_init_conversion_raises :
  forall (self : vobj) (a b c ra rb : PyVal) (fa fb : float) (e : exn),
    (np_deg2rad a = Raise e ->
     Rotator3D.__init__ np_deg2rad self a b c = Raise e)
    /\ (np_deg2rad a = Return ra -> float_ ra = Return fa ->
        np_deg2rad b = Raise e ->
        Rotator3D.__init__ np_deg2rad self a b c = Raise e)
    /\ (np_deg2rad a = Return ra -> float_ ra = Return fa ->
        np_deg2rad b = Return rb -> float_ rb = Return fb ->
        np_deg2rad c = Raise e ->
        Rotator3D.__init__ np_deg2rad self a b c = Raise e).
Proof.
  intros self a b c ra rb fa fb e.
  unfold Rotator3D.__init__, Vector3D.x_setter, Vector3D.y_setter.
  split; [|split].
  - intros ->; reflexivity.
  - intros -> Fa ->; cbn [bind].
    rewrite (float_numeric ra fa Fa), Fa; reflexivity.
  - intros -> Fa -> Fb ->; cbn [bind].
    rewrite (float_numeric ra fa Fa), Fa; cbn.
    rewrite (float_numeric rb fb Fb), Fb; reflexivity.
Qed.

End RotatorConstruction.

(** C4. Let [np.deg2rad] multiply a number by [NPY_PI / 180.0] in binary64.
    Then [Rotator3D(a, b, c)] on degree values stores
    [float(a) * (pi/180)], [float(b) * (pi/180)] and [float(c) * (pi/180)]
    as [x], [y] and [z]; each of the three values [np.deg2rad] returns is
    validated and coerced by the very setters of [Vector3D], in the order
    [x], [y], [z]: the constructor is the initialisation of a [Vector3D] on
    the three converted values, a converted value that is not a [float]
    raises the [TypeError] of its setter under the name [Rotator3D], and a
    conversion that raises ends the construction;
    [Rotator3D(180, 0, 90)] stores [NPY_PI], [0.0] and [NPY_PI / 2], which
    are within [1e-15] of the real numbers pi, 0 and pi/2; and the inherited
    getters, [+] and [==] read these radian values. *)
Theorem rotator_stores_radians :
  forall np_deg2rad : PyVal -> Result PyVal,
    deg2rad_on_numbers np_deg2rad ->
    (forall (a b c : PyVal) (fa fb fc : float),
       degrees a fa -> degrees b fb -> degrees c fc ->
       exists r : vobj,
         Rotator3D.new np_deg2rad a b c = Return r
         /\ __class__ r = CRotator3D
         /\ Vector3D.x r = (fa * deg2rad_factor)%float
         /\ Vector3D.y r = (fb * deg2rad_factor)%float
         /\ Vector3D.z r = (fc * deg2rad_factor)%float
         /\ (forall other : vobj,
               Vector3D.__add__ r other
               = Return (mkV CVector3D
                           (fa * deg2rad_factor + Vector3D.x other)%float
                           (fb * deg2rad_factor + Vector3D.y other)%float
                           (fc * deg2rad_factor + Vector3D.z other)%float)
               /\ Vector3D.__eq__ r other
                  = ((fa * deg2rad_factor =? Vector3D.x other)%float
                     && (fb * deg2rad_factor =? Vector3D.y other)%float
                     && (fc * deg2rad_factor =? Vector3D.z other)%float)))
    /\ (forall a b c r : PyVal,
          np_deg2rad a = Return r ->
          isinstance_int_float r = false ->
          Rotator3D.new np_deg2rad a b c
          = Raise (TypeError
              ("expected type Union[int, float] for Rotator3D.x but got "
               ++ type_name r ++ " instead")))
    /\ (forall (a b c ra rb : PyVal) (fa : float),
          np_deg2rad a = Return ra -> float_ ra = Return fa ->
          np_deg2rad b = Return rb ->
          isinstance_int_float rb = false ->
          Rotator3D.new np_deg2rad a b c
          = Raise (TypeError
              ("expected type Union[int, float] for Rotator3D.y but got "
               ++ type_name rb ++ " instead")))
    /\ (forall (a b c ra rb rc : PyVal) (fa fb : float),
          np_deg2rad a = Return ra -> float_ ra = Return fa ->
          np_deg2rad b = Return rb -> float_ rb = Return fb ->
          np_deg2rad c = Return rc ->
          isinstance_int_float rc = false ->
          Rotator3D.new np_deg2rad a b c
          = Raise (TypeError
              ("expected type Union[int, float] for Rotator3D.z but got "
               ++ type_name rc ++ " instead")))
    /\ (forall a b c ra rb rc : PyVal,
          np_deg2rad a = Return ra ->
          np_deg2rad b = Return rb ->
          np_deg2rad c = Return rc ->
          Rotator3D.new np_deg2rad a b c
          = Vector3D.__init__ (Vector3D.alloc CRotator3D) ra rb rc)
    /\ (forall (a b c ra rb : PyVal) (fa fb : float) (e : exn),
          (np_deg2rad a = Raise e ->
           Rotator3D.new np_deg2rad a b c = Raise e)
          /\ (np_deg2rad a = Return ra -> float_ ra = Return fa ->
              np_deg2rad b = Raise e ->
              Rotator3D.new np_deg2rad a b c = Raise e)
          /\ (np_deg2rad a = Return ra -> float_ ra = Return fa ->
              np_deg2rad b = Return rb -> float_ rb = Return fb ->
              np_deg2rad c = Raise e ->
              Rotator3D.new np_deg2rad a b c = Raise e))
    /\ (exists r : vobj,
          Rotator3D.new np_deg2rad (PyInt 180) (PyInt 0) (PyInt 90) = Return r
          /\ Vector3D.x r = NPY_PI
          /\ Vector3D.y r = 0%float
          /\ Vector3D.z r = (NPY_PI / 2)%float
          /\ near (Vector3D.x r) PI (1 / 1000000000000000)
          /\ near (Vector3D.y r) 0 (1 / 1000000000000000)
          /\ near (Vector3D.z r) (PI / 2) (1 / 1000000000000000)
          /\ Vector3D.__eq__ r (mkV CVector3D NPY_PI 0 (NPY_PI / 2)) = true
          /\ Vector3D.__eq__ r (mkV CVector3D 180 0 90) = false).
Proof.
  intros np_deg2rad Hnp; split; [|split; [|split; [|split; [|split; [|split]]]]].
  - intros a b c fa fb fc Ha Hb Hc.
    unfold Rotator3D.new.
    rewrite (rotator_init_returns np_deg2rad Hnp _ a b c fa fb fc Ha Hb Hc).
    eexists; split; [reflexivity|].
    repeat split.
  - intros a b c r Ha Hr.
    unfold Rotator3D.new.
    rewrite (rotator_init_validates np_deg2rad _ a b c r Ha Hr).
    reflexivity.
  - intros a b c ra rb fa Ha Fa Hb Hr.
    unfold Rotator3D.new.
    rewrite (rotator_init_validates_y np_deg2rad _ a b c ra rb fa Ha Fa Hb Hr).
    reflexivity.
  - intros a b c ra rb rc fa fb Ha Fa Hb Fb Hc Hr.
    unfold Rotator3D.new.
    rewrite (rotator_init_validates_z np_deg2rad _ a b c ra rb rc fa fb
               Ha Fa Hb Fb Hc Hr).
    reflexivity.
  - intros a b c ra rb rc Ha Hb Hc.
    apply (rotator_init_is_vector_init np_deg2rad _ a b c ra rb rc Ha Hb Hc).
  - intros a b c ra rb fa fb e.
    apply (rotator_init_conversion_raises np_deg2rad _ a b c ra rb fa fb e).
  - unfold Rotator3D.new.
    rewrite (rotator_init_returns np_deg2rad Hnp _
               (PyInt 180) (PyInt 0) (PyInt 90) 180%float 0%float 90%float).
    + eexists; split; [reflexivity|].
      split; [vm_compute; reflexivity|].
      split; [vm_compute; reflexivity|].
      split; [vm_compute; reflexivity|].
      split; [exact NPY_PI_near_PI|].
      split; [exact zero_near_zero|].
      split; [exact half_NPY_PI_near_half_PI|].
      split; vm_compute; reflexivity.
    + cbn; split; [lia | reflexivity].
    + cbn; split; [lia | reflexivity].
    + cbn; split; [lia | reflexivity].
Qed.

Lemma np_deg2rad_model_on_numbers : deg2rad_on_numbers np_deg2rad_model.
Proof.
  split.
  - intros n Hn; unfold np_deg2rad_model.
    replace ((- 2 ^ 63 <=? n) && (n <? 2 ^ 64))%Z with true; [reflexivity|].
    symmetry; apply andb_true_intro; split;
      [apply Z.leb_le | apply Z.ltb_lt]; lia.
  - intros f; reflexivity.
Defined.

Lemma rotator_stores_radians_witness :
  (exists r : vobj,
     Rotator3D.new np_deg2rad_model (PyInt 180) (PyInt 0) (PyInt 90) = Return r
     /\ Vector3D.x r = NPY_PI
     /\ Vector3D.z r = (NPY_PI / 2)%float)
  /\ Rotator3D.new np_deg2rad_model (PyBool true) (PyInt 0) (PyInt 0)
     = Raise (TypeError
         "expected type Union[int, float] for Rotator3D.x but got float16 instead")
  /\ Rotator3D.new np_deg2rad_model (PyInt 0) (PyBool true) (PyInt 0)
     = Raise (TypeError
         "expected type Union[int, float] for Rotator3D.y but got float16 instead")
  /\ Rotator3D.new np_deg2rad_model (PyInt 0) (PyInt 0) (PyBool true)
     = Raise (TypeError
         "expected type Union[int, float] for Rotator3D.z but got float16 instead")
  /\ Rotator3D.new np_deg2rad_model (PyInt 0) (PyInt 0) (PyStr "north")
     = Raise (TypeError "ufunc 'deg2rad' not supported for the input types").
Proof.
  destruct (rotator_stores_radians np_deg2rad_model np_deg2rad_model_on_numbers)
    as (_ & Hx & Hy & Hz & _ & Hraise & r & Hr & Rx & _ & Rz & _).
  split; [|split; [|split; [|split]]].
  - exists r; repeat split; assumption.
  - apply (Hx (PyBool true) (PyInt 0) (PyInt 0) (PyOther "float16"));
      reflexivity.
  - apply (Hy (PyInt 0) (PyBool true) (PyInt 0)
              (PyFloat 0) (PyOther "float16") 0%float);
      reflexivity.
  - apply (Hz (PyInt 0) (PyInt 0) (PyBool true)
              (PyFloat 0) (PyFloat 0) (PyOther "float16") 0%float 0%float);
      reflexivity.
  - apply (proj2 (proj2 (Hraise (PyInt 0) (PyInt 0) (PyStr "north")
                           (PyFloat 0) (PyFloat 0) 0%float 0%float
                           (TypeError "ufunc 'deg2rad' not supported for the input types"))));
      reflexivity.
Defined.

(** ** Integers as binary64 numbers *)

(** *** Digits and shifts *)

Lemma digits2_pos_log2 : forall p, Zpos (digits2_pos p) = Z.log2 (Zpos p) + 1.
Proof.
  induction p as [p IH|p IH|]; cbn [digits2_pos]; try reflexivity.
  - rewrite Pos2Z.inj_succ, IH.
    change (Z.pos p~1) with (2 * Z.pos p + 1).
    rewrite Z.log2_succ_double by lia; lia.
  - rewrite Pos2Z.inj_succ, IH.
    change (Z.pos p~0) with (2 * Z.pos p).
    rewrite Z.log2_double by lia; lia.
Qed.

Lemma digits2_pos_shift :
  forall p q k,
    0 <= k -> Zpos p = Zpos q * 2 ^ k ->
    Zpos (digits2_pos p) = Zpos (digits2_pos q) + k.
Proof.
  intros p q k Hk H.
  rewrite !digits2_pos_log2, H, Z.log2_mul_pow2 by lia; lia.
Qed.

Lemma digits2_pos_bound :
  forall p, Zpos p < 2 ^ 53 -> Zpos (digits2_pos p) <= 53.
Proof.
  intros p H; rewrite digits2_pos_log2.
  assert (Z.log2 (Zpos p) < 53) by (apply Z.log2_lt_pow2; lia); lia.
Qed.

Lemma fexp_small : forall d, -1021 <= d -> fexp prec emax d = d - 53.
Proof. intros d Hd; unfold fexp, emin, prec, emax; lia. Qed.

Lemma iter_pos_nat :
  forall (A : Type) (f : A -> A) (n : positive) (x : A),
    SpecFloat.iter_pos f n x = Nat.iter (Pos.to_nat n) f x.
Proof.
  intros A f; induction n as [n IH|n IH|]; intros x; cbn [SpecFloat.iter_pos].
  - rewrite !IH, Pos2Nat.inj_xI, <- Nat.iter_add.
    replace (S (2 * Pos.to_nat n))%nat
      with (Pos.to_nat n + Pos.to_nat n + 1)%nat by lia.
    rewrite <- (Nat.iter_add _ 1); reflexivity.
  - rewrite !IH, Pos2Nat.inj_xO, <- Nat.iter_add.
    f_equal; lia.
  - reflexivity.
Qed.

(** Shifting an even mantissa right by one bit loses nothing. *)
Lemma shr_1_double :
  forall z,
    shr_1 (Build_shr_record (2 * z) false false) = Build_shr_record z false false.
Proof. intros [|p|p]; reflexivity. Qed.

Lemma shr_iter_exact :
  forall (j : nat) (z : Z),
    Nat.iter j shr_1 (Build_shr_record (z * 2 ^ Z.of_nat j) false false)
    = Build_shr_record z false false.
Proof.
  induction j as [|j IH]; intros z.
  - cbn; f_equal; lia.
  - rewrite Nat.iter_succ_r.
    replace (z * 2 ^ Z.of_nat (S j)) with (2 * (z * 2 ^ Z.of_nat j)).
    + rewrite shr_1_double; apply IH.
    + rewrite Nat2Z.inj_succ, Z.pow_succ_r by lia; lia.
Qed.

Lemma shr_exact :
  forall z e n : Z,
    0 <= n ->
    shr (Build_shr_record (z * 2 ^ n) false false) e n
    = (Build_shr_record z false false, e + n).
Proof.
  intros z e [|p|p] Hn; try lia.
  - cbn; f_equal; [f_equal|]; lia.
  - unfold shr; rewrite iter_pos_nat.
    rewrite <- (positive_nat_Z p) at 1.
    rewrite shr_iter_exact; reflexivity.
Qed.

Lemma shl_align_spec :
  forall mx ex ex',
    snd (shl_align mx ex ex') = Z.min ex ex'
    /\ Zpos (fst (shl_align mx ex ex')) = Zpos mx * 2 ^ (ex - Z.min ex ex').
Proof.
  intros mx ex ex'; unfold shl_align.
  destruct (ex' - ex) as [|d|d] eqn:E; cbn [fst snd].
  - replace (Z.min ex ex') with ex by lia; rewrite Z.sub_diag; lia.
  - replace (Z.min ex ex') with ex by lia; rewrite Z.sub_diag; lia.
  - replace (Z.min ex ex') with ex' by lia.
    replace (ex - ex') with (Zpos d) by lia.
    split; [reflexivity|].
    rewrite <- Z.shiftl_mul_pow2 by lia.
    unfold Z.shiftl.
    apply (Pos.iter_swap_gen _ _ Zpos xO (Z.mul 2)).
    reflexivity.
Qed.

(** *** Rounding an integer of at most 53 bits is exact *)

Lemma canon_mantissa :
  forall q,
    Zpos q < 2 ^ 53 ->
    Zpos (Z.to_pos (Zpos q * 2 ^ (53 - Zpos (digits2_pos q))))
    = Zpos q * 2 ^ (53 - Zpos (digits2_pos q)).
Proof.
  intros q Hq; pose proof (digits2_pos_bound q Hq).
  rewrite Z2Pos.id; [reflexivity|].
  apply Z.mul_pos_pos; [lia | apply Z.pow_pos_nonneg; lia].
Qed.

Lemma binary_round_aux_exact :
  forall s mz ez q,
    Zpos q < 2 ^ 53 ->
    ez <= Zpos (digits2_pos q) - 53 ->
    Zpos mz = Zpos q * 2 ^ (- ez) ->
    binary_round_aux prec emax s (Zpos mz) ez loc_Exact = canon s q.
Proof.
  intros s mz ez q Hq Hez Hmz.
  pose proof (digits2_pos_bound q Hq) as Hd.
  pose proof (canon_mantissa q Hq) as Hm0.
  unfold canon.
  set (d := Zpos (digits2_pos q)) in *.
  set (m0 := Z.to_pos (Zpos q * 2 ^ (53 - d))) in *.
  assert (Hd1 : 1 <= d) by (unfold d; lia).
  assert (Hdz : Zpos (digits2_pos mz) = d - ez).
  { rewrite (digits2_pos_shift mz q (- ez)) by (lia || exact Hmz).
    fold d; lia. }
  assert (Hd0 : Zpos (digits2_pos m0) = 53).
  { rewrite (digits2_pos_shift m0 q (53 - d)) by (lia || exact Hm0).
    fold d; lia. }
  unfold binary_round_aux, shr_fexp.
  cbn [Zdigits2 shr_record_of_loc].
  rewrite Hdz.
  replace (d - ez + ez) with d by lia.
  rewrite (fexp_small d) by lia.
  replace (Zpos mz) with (Zpos m0 * 2 ^ (d - 53 - ez)).
  2:{ rewrite Hmz, Hm0, <- Z.mul_assoc, <- Z.pow_add_r by lia.
      f_equal; f_equal; lia. }
  rewrite shr_exact by lia.
  cbn [shr_m loc_of_shr_record round_nearest_even Zdigits2 shr_record_of_loc].
  rewrite Hd0.
  replace (ez + (d - 53 - ez)) with (d - 53) by lia.
  replace (53 + (d - 53)) with d by lia.
  rewrite (fexp_small d) by lia.
  rewrite Z.sub_diag; cbn [shr shr_m].
  replace (d - 53 <=? emax - prec)%Z with true
    by (symmetry; apply Z.leb_le; unfold emax, prec; lia).
  reflexivity.
Qed.

Lemma binary_round_exact :
  forall s mx q k,
    0 <= k -> Zpos q < 2 ^ 53 ->
    Zpos mx = Zpos q * 2 ^ k ->
    binary_round prec emax s mx (- k) = canon s q.
Proof.
  intros s mx q k Hk Hq Hmx.
  pose proof (digits2_pos_bound q Hq) as Hd.
  unfold binary_round.
  rewrite (digits2_pos_shift mx q k Hk Hmx).
  replace (Zpos (digits2_pos q) + k + - k) with (Zpos (digits2_pos q)) by lia.
  rewrite fexp_small by lia.
  destruct (shl_align_spec mx (- k) (Zpos (digits2_pos q) - 53)) as [Hez Hmz].
  destruct (shl_align mx (- k) (Zpos (digits2_pos q) - 53)) as [mz ez].
  cbn [fst snd] in Hez, Hmz.
  apply binary_round_aux_exact; [exact Hq | lia |].
  rewrite Hmz, Hmx, <- Z.mul_assoc, <- Z.pow_add_r by lia.
  f_equal; f_equal; lia.
Qed.

Lemma round_int_canon :
  forall n,
    Z.abs n < 2 ^ 53 ->
    round_int n = match n with
                  | Z0 => S754_zero false
                  | Zpos q => canon false q
                  | Zneg q => canon true q
                  end.
Proof.
  intros [|q|q] Hn; unfold round_int, binary_normalize; [reflexivity| |];
    apply (binary_round_exact _ q q 0); cbn in *; lia.
Qed.

Lemma normalize_exact :
  forall n k,
    0 <= k -> Z.abs n < 2 ^ 53 ->
    binary_normalize prec emax (n * 2 ^ k) (- k) false = round_int n.
Proof.
  intros n k Hk Hn.
  rewrite round_int_canon by exact Hn.
  assert (Hp : 0 < 2 ^ k) by (apply Z.pow_pos_nonneg; lia).
  destruct n as [|q|q].
  - reflexivity.
  - destruct (Zpos q * 2 ^ k) as [|mx|mx] eqn:E; try lia.
    unfold binary_normalize.
    apply binary_round_exact; [lia | cbn in Hn; lia | lia].
  - destruct (Zneg q * 2 ^ k) as [|mx|mx] eqn:E; try lia.
    unfold binary_normalize.
    apply binary_round_exact; [lia | cbn in Hn; lia | lia].
Qed.

(** *** Sums and differences of such integers are exact *)

(** The mantissa of a canonical number, aligned to a lower exponent. *)
Lemma aligned_mantissa :
  forall q ez,
    Zpos q < 2 ^ 53 ->
    ez <= Zpos (digits2_pos q) - 53 ->
    Zpos (fst (shl_align (Z.to_pos (Zpos q * 2 ^ (53 - Zpos (digits2_pos q))))
                         (Zpos (digits2_pos q) - 53) ez))
    = Zpos q * 2 ^ (- ez).
Proof.
  intros q ez Hq Hez.
  pose proof (digits2_pos_bound q Hq) as Hd.
  destruct (shl_align_spec (Z.to_pos (Zpos q * 2 ^ (53 - Zpos (digits2_pos q))))
              (Zpos (digits2_pos q) - 53) ez) as [_ H].
  rewrite H, canon_mantissa by exact Hq.
  rewrite <- Z.mul_assoc, <- Z.pow_add_r by lia.
  f_equal; f_equal; lia.
Qed.

Lemma cond_Zopp_sign :
  forall s q k, cond_Zopp s (Zpos q * k) = sign_Z s q * k.
Proof. intros [|] q k; cbn [cond_Zopp sign_Z]; lia. Qed.

Section CanonicalArithmetic.

Variables (s1 s2 : bool) (q1 q2 : positive).
Hypothesis H1 : Zpos q1 < 2 ^ 53.
Hypothesis H2 : Zpos q2 < 2 ^ 53.

Lemma canon_add :
  Z.abs (sign_Z s1 q1 + sign_Z s2 q2) < 2 ^ 53 ->
  SFadd prec emax (canon s1 q1) (canon s2 q2)
  = round_int (sign_Z s1 q1 + sign_Z s2 q2).
Proof.
  intros H.
  pose proof (digits2_pos_bound q1 H1) as Hd1.
  pose proof (digits2_pos_bound q2 H2) as Hd2.
  unfold canon, SFadd.
  set (ez := Z.min (Zpos (digits2_pos q1) - 53) (Zpos (digits2_pos q2) - 53)).
  cbv zeta.
  rewrite !aligned_mantissa by (assumption || lia).
  rewrite !cond_Zopp_sign, <- Z.mul_add_distr_r.
  replace ez with (- - ez) at 2 by lia.
  apply normalize_exact; lia.
Qed.

Lemma canon_sub :
  Z.abs (sign_Z s1 q1 - sign_Z s2 q2) < 2 ^ 53 ->
  SFsub prec emax (canon s1 q1) (canon s2 q2)
  = round_int (sign_Z s1 q1 - sign_Z s2 q2).
Proof.
  intros H.
  pose proof (digits2_pos_bound q1 H1) as Hd1.
  pose proof (digits2_pos_bound q2 H2) as Hd2.
  unfold canon, SFsub.
  set (ez := Z.min (Zpos (digits2_pos q1) - 53) (Zpos (digits2_pos q2) - 53)).
  cbv zeta.
  rewrite !aligned_mantissa by (assumption || lia).
  rewrite !cond_Zopp_sign, <- Z.mul_sub_distr_r.
  replace ez with (- - ez) at 2 by lia.
  apply normalize_exact; lia.
Qed.

End CanonicalArithmetic.

Lemma round_int_add :
  forall a b,
    Z.abs a < 2 ^ 53 -> Z.abs b < 2 ^ 53 -> Z.abs (a + b) < 2 ^ 53 ->
    SFadd prec emax (round_int a) (round_int b) = round_int (a + b).
Proof.
  intros a b Ha Hb Hab.
  rewrite (round_int_canon a Ha), (round_int_canon b Hb).
  destruct a as [|p|p], b as [|q|q];
    try reflexivity;
    try (rewrite ?Z.add_0_r, ?Z.add_0_l, round_int_canon by assumption;
         reflexivity).
  - apply (canon_add false false p q); cbn in *; lia.
  - apply (canon_add false true p q); cbn in *; lia.
  - apply (canon_add true false p q); cbn in *; lia.
  - apply (canon_add true true p q); cbn in *; lia.
Qed.

Lemma round_int_sub :
  forall a b,
    Z.abs a < 2 ^ 53 -> Z.abs b < 2 ^ 53 -> Z.abs (a - b) < 2 ^ 53 ->
    SFsub prec emax (round_int a) (round_int b) = round_int (a - b).
Proof.
  intros a b Ha Hb Hab.
  rewrite (round_int_canon a Ha), (round_int_canon b Hb).
  destruct a as [|p|p], b as [|q|q];
    try reflexivity;
    try (rewrite ?Z.sub_0_r, ?Z.sub_0_l, round_int_canon by assumption;
         reflexivity).
  - apply (canon_sub false false p q); cbn in *; lia.
  - apply (canon_sub false true p q); cbn in *; lia.
  - apply (canon_sub true false p q); cbn in *; lia.
  - apply (canon_sub true true p q); cbn in *; lia.
Qed.

Lemma round_int_valid :
  forall n, Z.abs n < 2 ^ 53 -> valid_binary (round_int n) = true.
Proof.
  intros n Hn; rewrite round_int_canon by exact Hn.
  destruct n as [|q|q]; [reflexivity| |];
    (unfold canon, SpecFloat.valid_binary, SpecFloat.bounded,
       SpecFloat.canonical_mantissa;
     assert (Hq : Zpos q < 2 ^ 53) by (cbn in Hn; lia);
     pose proof (digits2_pos_bound q Hq) as Hd;
     pose proof (canon_mantissa q Hq) as Hm;
     assert (Hk : 0 <= 53 - Zpos (digits2_pos q)) by lia;
     rewrite (digits2_pos_shift _ q _ Hk Hm);
     rewrite fexp_small by lia;
     apply andb_true_intro; split;
     [apply Z.eqb_eq; lia | apply Z.leb_le; unfold emax, prec; lia]).
Qed.

Lemma round_int_eqb :
  forall n, Z.abs n < 2 ^ 53 -> SFeqb (round_int n) (round_int n) = true.
Proof.
  intros n Hn; rewrite round_int_canon by exact Hn.
  destruct n as [|q|q]; [reflexivity| |];
    unfold canon, SFeqb, SFcompare;
    rewrite Z.compare_refl, Pos.compare_cont_refl; reflexivity.
Qed.

(** [float(n)] is defined for every integer below [2^53] in magnitude, and
    denotes [n]. *)
Lemma float_of_int_small :
  forall n,
    Z.abs n < 2 ^ 53 ->
    float_of_int n = Return (SF2Prim (round_int n))
    /\ Prim2SF (SF2Prim (round_int n)) = round_int n.
Proof.
  intros n Hn; split.
  - unfold float_of_int; rewrite round_int_canon by exact Hn.
    destruct n; reflexivity.
  - apply Prim2SF_SF2Prim, round_int_valid, Hn.
Qed.

(** The round trip on one component. *)
Lemma component_round_trip :
  forall a b,
    exact_sum a b ->
    exists fa fb : float,
      float_of_int a = Return fa
      /\ float_of_int b = Return fb
      /\ ((fa + fb - fb) =? fa)%float = true.
Proof.
  intros a b (Ha & Hb & Hab).
  destruct (float_of_int_small a Ha) as [Hfa Hsa].
  destruct (float_of_int_small b Hb) as [Hfb Hsb].
  exists (SF2Prim (round_int a)), (SF2Prim (round_int b)).
  split; [exact Hfa|]; split; [exact Hfb|].
  rewrite FloatAxioms.eqb_spec, FloatAxioms.sub_spec, FloatAxioms.add_spec, Hsa, Hsb.
  unfold SF64sub, SF64add.
  rewrite round_int_add by assumption.
  rewrite round_int_sub by (assumption || (replace (a + b - b) with a by lia; exact Ha)).
  replace (a + b - b) with a by lia.
  apply round_int_eqb, Ha.
Qed.

(** *** Rounding a number that is representable *)

Lemma valid_finite :
  forall s m e,
    valid_binary (S754_finite s m e) = true ->
    fexp prec emax (Zpos (digits2_pos m) + e) = e /\ e <= 971.
Proof.
  intros s m e H; cbn in H.
  unfold SpecFloat.bounded, SpecFloat.canonical_mantissa in H.
  apply andb_prop in H; destruct H as [H1 H2].
  apply Z.eqb_eq in H1; apply Z.leb_le in H2.
  unfold emax, prec in H2; split; [exact H1 | lia].
Qed.

Lemma round_aux_representable :
  forall s m e k mz,
    fexp prec emax (Zpos (digits2_pos m) + e) = e -> e <= 971 ->
    0 <= k -> Zpos mz = Zpos m * 2 ^ k ->
    binary_round_aux prec emax s (Zpos mz) (e - k) loc_Exact
    = S754_finite s m e.
Proof.
  intros s m e k mz Hc He Hk Hmz.
  unfold binary_round_aux, shr_fexp.
  cbn [Zdigits2 shr_record_of_loc].
  rewrite (digits2_pos_shift mz m k Hk Hmz).
  replace (Zpos (digits2_pos m) + k + (e - k))
    with (Zpos (digits2_pos m) + e) by lia.
  rewrite Hc, Hmz.
  replace (e - (e - k)) with k by lia.
  rewrite shr_exact by lia.
  cbn [shr_m loc_of_shr_record round_nearest_even Zdigits2 shr_record_of_loc].
  replace (e - k + k) with e by lia.
  rewrite Hc, Z.sub_diag; cbn [shr shr_m].
  replace (e <=? emax - prec)%Z with true
    by (symmetry; apply Z.leb_le; unfold emax, prec; lia).
  reflexivity.
Qed.

Lemma SFeqb_refl :
  forall x,
    SFeqb x x = negb (match x with S754_nan => true | _ => false end).
Proof.
  intros [[|]|[|]| |[|] m e]; unfold SFeqb, SFcompare; try reflexivity;
    rewrite Z.compare_refl, Pos.compare_cont_refl; reflexivity.
Qed.

(** *** Subtraction that is not rounded *)

Lemma fexp_emin : forall t e, fexp prec emax t = e -> -1074 <= e.
Proof. intros t e; unfold fexp, emin, prec, emax; lia. Qed.

(** Rounding [M * 2^ez] gives the binary64 number [(s, m, e)] when the two
    are the same number. *)
Lemma normalize_representable : forall M ez s m e,
  fexp prec emax (Zpos (digits2_pos m) + e) = e -> e <= 971 ->
  -1074 <= ez ->
  M * 2 ^ (ez + 1074) = cond_Zopp s (Zpos m) * 2 ^ (e + 1074) ->
  binary_normalize prec emax M ez false = S754_finite s m e.
Proof.
  intros M ez s m e Hc He Hez HM.
  pose proof (fexp_emin _ _ Hc) as Hemin.
  assert (Hr : forall mx, Zpos mx * 2 ^ (ez + 1074) = Zpos m * 2 ^ (e + 1074) ->
               binary_round prec emax s mx ez = S754_finite s m e).
  { intros mx Hmx.
    destruct (Z.le_gt_cases ez e) as [Hle|Hgt].
    - (* shift right by e - ez *)
      assert (Hk : Zpos mx = Zpos m * 2 ^ (e - ez)).
      { replace (e + 1074) with ((e - ez) + (ez + 1074)) in Hmx by lia.
        rewrite (Z.pow_add_r 2 (e - ez) (ez + 1074)), Z.mul_assoc in Hmx by lia.
        apply Z.mul_reg_r in Hmx; [exact Hmx|].
        apply Z.pow_nonzero; lia. }
      unfold binary_round.
      rewrite (digits2_pos_shift mx m (e - ez) ltac:(lia) Hk).
      replace (Zpos (digits2_pos m) + (e - ez) + ez) with (Zpos (digits2_pos m) + e) by lia.
      rewrite Hc.
      pose proof (round_aux_representable s m e (e - ez) mx Hc He ltac:(lia) Hk) as H.
      replace (e - (e - ez)) with ez in H by lia.
      unfold shl_align.
      destruct (e - ez) as [|p|p] eqn:E; try lia; exact H.
    - (* shift left by ez - e *)
      assert (Hk : Zpos m = Zpos mx * 2 ^ (ez - e)).
      { replace (ez + 1074) with ((ez - e) + (e + 1074)) in Hmx by lia.
        rewrite (Z.pow_add_r 2 (ez - e) (e + 1074)), Z.mul_assoc in Hmx by lia.
        apply Z.mul_reg_r in Hmx; [symmetry; exact Hmx|].
        apply Z.pow_nonzero; lia. }
      unfold binary_round.
      assert (Hd : Zpos (digits2_pos mx) + ez = Zpos (digits2_pos m) + e).
      { rewrite (digits2_pos_shift m mx (ez - e) ltac:(lia) Hk). lia. }
      rewrite Hd, Hc.
      destruct (shl_align_spec mx ez e) as [Hs Hf].
      destruct (shl_align mx ez e) as [mz ez'].
      cbn [fst snd] in Hs, Hf.
      replace (Z.min ez e) with e in Hs, Hf by lia.
      subst ez'.
      assert (mz = m) by lia. subst mz.
      pose proof (round_aux_representable s m e 0 m Hc He ltac:(lia) ltac:(lia)) as H.
      rewrite Z.sub_0_r in H. exact H. }
  assert (Hp : 0 < 2 ^ (ez + 1074)) by (apply Z.pow_pos_nonneg; lia).
  assert (Hp' : 0 < 2 ^ (e + 1074)) by (apply Z.pow_pos_nonneg; lia).
  unfold binary_normalize.
  destruct M as [|mx|mx]; destruct s; cbn [cond_Zopp] in HM; try nia.
  - apply Hr; exact HM.
  - apply Hr; rewrite <- !Pos2Z.opp_pos in HM; lia.
Qed.

(** Two binary64 numbers of the same number of units are the same. *)
Lemma units_unique : forall s m e s' m' e',
  fexp prec emax (Zpos (digits2_pos m) + e) = e -> e <= 971 ->
  fexp prec emax (Zpos (digits2_pos m') + e') = e' -> e' <= 971 ->
  cond_Zopp s (Zpos m) * 2 ^ (e + 1074) = cond_Zopp s' (Zpos m') * 2 ^ (e' + 1074) ->
  S754_finite s m e = S754_finite s' m' e'.
Proof.
  intros s m e s' m' e' Hc He Hc' He' H.
  pose proof (fexp_emin _ _ Hc) as Hm.
  rewrite <- (normalize_representable (cond_Zopp s (Zpos m)) e s m e Hc He Hm eq_refl).
  apply normalize_representable; assumption.
Qed.

Lemma units_finite_nonzero : forall s m e,
  -1074 <= e -> cond_Zopp s (Zpos m) * 2 ^ (e + 1074) <> 0.
Proof.
  intros s m e He.
  assert (0 < 2 ^ (e + 1074)) by (apply Z.pow_pos_nonneg; lia).
  destruct s; cbn [cond_Zopp]; nia.
Qed.

Lemma cond_Zopp_mul : forall s a b, cond_Zopp s a * b = cond_Zopp s (a * b).
Proof. intros [|] a b; cbn [cond_Zopp]; lia. Qed.

Lemma aligned_units : forall s m e ez,
  -1074 <= ez -> ez <= e ->
  cond_Zopp s (Zpos (fst (shl_align m e ez))) * 2 ^ (ez + 1074)
  = cond_Zopp s (Zpos m) * 2 ^ (e + 1074).
Proof.
  intros s m e ez Hez Hle.
  destruct (shl_align_spec m e ez) as [_ H].
  rewrite H. replace (Z.min e ez) with ez by lia.
  rewrite !cond_Zopp_mul. f_equal.
  rewrite <- Z.mul_assoc, <- Z.pow_add_r by lia.
  f_equal; f_equal; lia.
Qed.

Lemma SFsub_exact : forall S B A us ub,
  valid_binary S = true -> valid_binary B = true -> valid_binary A = true ->
  units_sf S = Some us -> units_sf B = Some ub -> units_sf A = Some (us - ub) ->
  SFeqb (SFsub prec emax S B) A = true.
Proof.
  intros S B A us ub VS VB VA HS HB HA.
  destruct S as [ss|ss| |ss ms es]; try discriminate;
  destruct B as [sb|sb| |sb mb eb]; try discriminate;
  destruct A as [sa|sa| |sa ma ea]; try discriminate;
  cbn [units_sf] in HS, HB, HA;
  injection HS as HS; injection HB as HB; injection HA as HA;
  try (destruct (valid_finite _ _ _ VS) as [CS ES]; pose proof (fexp_emin _ _ CS) as MS);
  try (destruct (valid_finite _ _ _ VB) as [CB EB]; pose proof (fexp_emin _ _ CB) as MB);
  try (destruct (valid_finite _ _ _ VA) as [CA EA]; pose proof (fexp_emin _ _ CA) as MA).
  - (* zero zero zero *) destruct ss, sb, sa; reflexivity.
  - (* zero zero finite *) exfalso. apply (units_finite_nonzero sa ma ea MA). lia.
  - (* zero finite zero *) exfalso. apply (units_finite_nonzero sb mb eb MB). lia.
  - (* zero finite finite *)
    cbn [SFsub].
    rewrite (units_unique (negb sb) mb eb sa ma ea CB EB CA EA).
    + rewrite SFeqb_refl; reflexivity.
    + rewrite HA, <- HS, <- HB. destruct sb; cbn [cond_Zopp negb]; lia.
  - (* finite zero zero *) exfalso. apply (units_finite_nonzero ss ms es MS). lia.
  - (* finite zero finite *)
    cbn [SFsub].
    rewrite (units_unique ss ms es sa ma ea CS ES CA EA).
    + rewrite SFeqb_refl; reflexivity.
    + rewrite HA, <- HS, <- HB. lia.
  - (* finite finite zero *)
    unfold SFsub.
    set (ez := Z.min es eb).
    assert (HM : (cond_Zopp ss (Zpos (fst (shl_align ms es ez)))
                  - cond_Zopp sb (Zpos (fst (shl_align mb eb ez)))) * 2 ^ (ez + 1074) = 0).
    { rewrite Z.mul_sub_distr_r, !aligned_units by (unfold ez; lia). lia. }
    assert (0 < 2 ^ (ez + 1074)) by (apply Z.pow_pos_nonneg; unfold ez; lia).
    replace (cond_Zopp ss (Zpos (fst (shl_align ms es ez)))
             - cond_Zopp sb (Zpos (fst (shl_align mb eb ez)))) with 0 by nia.
    destruct sa; reflexivity.
  - (* finite finite finite *)
    unfold SFsub.
    set (ez := Z.min es eb).
    rewrite (normalize_representable _ ez sa ma ea CA EA).
    + rewrite SFeqb_refl; reflexivity.
    + unfold ez; lia.
    + rewrite Z.mul_sub_distr_r, !aligned_units by (unfold ez; lia). lia.
Qed.

(** The round trip on one component whose sum is not rounded. *)
Lemma component_round_trip_exact :
  forall a b : float,
    sum_not_rounded a b = true -> ((a + b - b) =? a)%float = true.
Proof.
  intros a b; unfold sum_not_rounded.
  destruct (float_units a) as [ua|] eqn:Ea; [|discriminate].
  destruct (float_units b) as [ub|] eqn:Eb; [|discriminate].
  destruct (float_units (a + b)) as [us|] eqn:Es; [|discriminate].
  intros H; apply Z.eqb_eq in H.
  rewrite FloatAxioms.eqb_spec, FloatAxioms.sub_spec.
  apply (SFsub_exact _ _ _ us ub); try apply Prim2SF_valid; try assumption.
  unfold float_units in Ea; rewrite Ea; f_equal; lia.
Qed.

(** The round trip on one component that is an infinity. *)
Lemma component_round_trip_infinite :
  forall a b : float,
    float_infinite a = true -> float_finite b = true ->
    ((a + b - b) =? a)%float = true.
Proof.
  intros a b Ha Hb.
  rewrite FloatAxioms.eqb_spec, FloatAxioms.sub_spec, FloatAxioms.add_spec.
  unfold float_infinite in Ha; unfold float_finite in Hb.
  destruct (Prim2SF a) as [| [|] | |]; try discriminate;
    destruct (Prim2SF b) as [[|]| | |[|]]; try discriminate; reflexivity.
Qed.

Lemma component_round_trip_not_rounded :
  forall a b : float,
    component_not_rounded a b = true -> ((a + b - b) =? a)%float = true.
Proof.
  intros a b H; unfold component_not_rounded in H.
  apply orb_prop in H; destruct H as [H|H].
  - apply component_round_trip_exact, H.
  - apply andb_prop in H; destruct H as [Ha Hb].
    apply component_round_trip_infinite; assumption.
Qed.

(** An integer below [2^53] in magnitude converts to [n * 2^1074] units. *)
Lemma round_int_units :
  forall n, Z.abs n < 2 ^ 53 -> units_sf (round_int n) = Some (n * 2 ^ 1074).
Proof.
  intros n Hn; rewrite round_int_canon by exact Hn.
  destruct n as [|q|q]; [reflexivity| |];
    (assert (Hq : Zpos q < 2 ^ 53) by (cbn in Hn; lia);
     pose proof (digits2_pos_bound q Hq) as Hd;
     pose proof (canon_mantissa q Hq) as Hm;
     unfold canon, units_sf; rewrite Hm; f_equal;
     replace 1074 with ((53 - Zpos (digits2_pos q))
                        + (Zpos (digits2_pos q) - 53 + 1074)) at 2 by lia;
     rewrite (Z.pow_add_r 2 (53 - Zpos (digits2_pos q))) by lia;
     cbn [cond_Zopp]; lia).
Qed.

(** The integer instances: the sum of two integers that, with their sum,
    are below [2^53] in magnitude is not rounded. *)
Lemma integers_not_rounded :
  forall a b,
    exact_sum a b ->
    sum_not_rounded (SF2Prim (round_int a)) (SF2Prim (round_int b)) = true.
Proof.
  intros a b (Ha & Hb & Hab).
  destruct (float_of_int_small a Ha) as [_ Hsa].
  destruct (float_of_int_small b Hb) as [_ Hsb].
  unfold sum_not_rounded, float_units.
  rewrite FloatAxioms.add_spec, Hsa, Hsb.
  unfold SF64add; rewrite round_int_add by assumption.
  rewrite !round_int_units by assumption.
  apply Z.eqb_eq; lia.
Qed.

(** ** The round trip under addition and subtraction *)

(** [+] and [-] on two vectors always return, a new [Vector3D]. *)
Lemma add_returns :
  forall v1 v2,
    Vector3D.__add__ v1 v2
    = Return (mkV CVector3D (Vector3D.x v1 + Vector3D.x v2)%float
                            (Vector3D.y v1 + Vector3D.y v2)%float
                            (Vector3D.z v1 + Vector3D.z v2)%float).
Proof. reflexivity. Qed.

Lemma sub_returns :
  forall v1 v2,
    Vector3D.__sub__ v1 v2
    = Return (mkV CVector3D (Vector3D.x v1 - Vector3D.x v2)%float
                            (Vector3D.y v1 - Vector3D.y v2)%float
                            (Vector3D.z v1 - Vector3D.z v2)%float).
Proof. reflexivity. Qed.

(** C7, as the code has it.  For all vectors [v1] and [v2] such that no
    component of [v1 + v2] is rounded (in each coordinate the two
    components are finite and their binary64 sum is their exact sum, or
    the component of [v1] is an infinity and that of [v2] is finite),
    [v1 + v2] and [(v1 + v2) - v2] are new [Vector3D] objects and
    [(v1 + v2) - v2 == v1] is [True].  The components need not be
    integers: fractions and radians are covered. *)
Theorem add_sub_round_trip_not_rounded :
  forall v1 v2 : vobj,
    sums_not_rounded v1 v2 = true ->
    exists s d : vobj,
      Vector3D.__add__ v1 v2 = Return s
      /\ Vector3D.__sub__ s v2 = Return d
      /\ __class__ s = CVector3D
      /\ __class__ d = CVector3D
      /\ add_sub_round_trip v1 v2 = Return true.
Proof.
  intros v1 v2 H; unfold sums_not_rounded in H.
  apply andb_prop in H; destruct H as [H Hz].
  apply andb_prop in H; destruct H as [Hx Hy].
  apply component_round_trip_not_rounded in Hx, Hy, Hz.
  eexists; eexists.
  split; [apply add_returns|].
  split; [apply sub_returns|].
  split; [reflexivity|].
  split; [reflexivity|].
  unfold add_sub_round_trip.
  rewrite add_returns; cbn [bind].
  rewrite sub_returns; cbn [bind].
  unfold Vector3D.__eq__, Vector3D.x, Vector3D.y, Vector3D.z in *;
    cbn [_x _y _z].
  rewrite Hx, Hy, Hz; reflexivity.
Qed.

(** [(0.5, -1.25, inf) + (0.25, 3.0, 2.0) - (0.25, 3.0, 2.0)] is
    [(0.5, -1.25, inf)], and a rotator of [pi], [0] and [pi/2] radians
    comes back after adding and subtracting itself. *)
Lemma add_sub_round_trip_not_rounded_witness :
  (sums_not_rounded (mkV CVector3D 0.5 (-1.25) infinity)
                    (mkV CVector3D 0.25 3 2) = true
   /\ add_sub_round_trip (mkV CVector3D 0.5 (-1.25) infinity)
                         (mkV CVector3D 0.25 3 2) = Return true)
  /\ (sums_not_rounded (mkV CRotator3D NPY_PI 0 (NPY_PI / 2))
                       (mkV CRotator3D NPY_PI 0 (NPY_PI / 2)) = true
      /\ add_sub_round_trip (mkV CRotator3D NPY_PI 0 (NPY_PI / 2))
                            (mkV CRotator3D NPY_PI 0 (NPY_PI / 2))
         = Return true).
Proof.
  split; (split; [vm_compute; reflexivity|]).
  - destruct (add_sub_round_trip_not_rounded
                (mkV CVector3D 0.5 (-1.25) infinity)
                (mkV CVector3D 0.25 3 2)) as (s & d & _ & _ & _ & _ & R);
      [vm_compute; reflexivity | exact R].
  - destruct (add_sub_round_trip_not_rounded
                (mkV CRotator3D NPY_PI 0 (NPY_PI / 2))
                (mkV CRotator3D NPY_PI 0 (NPY_PI / 2)))
      as (s & d & _ & _ & _ & _ & R);
      [vm_compute; reflexivity | exact R].
Defined.

(** The integer instances.  For vectors built from integer components,
    where in each coordinate the component of [v1], the component of [v2]
    and their sum are below [2^53] in magnitude, the constructor returns
    both vectors and [(v1 + v2) - v2 == v1] is [True]. *)
Theorem add_sub_round_trip_on_integers :
  forall a1 a2 a3 b1 b2 b3 : Z,
    exact_sum a1 b1 -> exact_sum a2 b2 -> exact_sum a3 b3 ->
    exists v1 v2 : vobj,
      Vector3D.new (PyInt a1) (PyInt a2) (PyInt a3) = Return v1
      /\ Vector3D.new (PyInt b1) (PyInt b2) (PyInt b3) = Return v2
      /\ add_sub_round_trip v1 v2 = Return true.
Proof.
  intros a1 a2 a3 b1 b2 b3 E1 E2 E3.
  destruct (component_round_trip a1 b1 E1) as (fa1 & fb1 & Ha1 & Hb1 & R1).
  destruct (component_round_trip a2 b2 E2) as (fa2 & fb2 & Ha2 & Hb2 & R2).
  destruct (component_round_trip a3 b3 E3) as (fa3 & fb3 & Ha3 & Hb3 & R3).
  exists (mkV CVector3D fa1 fa2 fa3), (mkV CVector3D fb1 fb2 fb3).
  split; [|split].
  - apply (init_returns (PyInt a1) (PyInt a2) (PyInt a3)); assumption.
  - apply (init_returns (PyInt b1) (PyInt b2) (PyInt b3)); assumption.
  - unfold add_sub_round_trip.
    rewrite add_returns; cbn [bind].
    rewrite sub_returns; cbn [bind].
    unfold Vector3D.__eq__, Vector3D.x, Vector3D.y, Vector3D.z; cbn [_x _y _z].
    rewrite R1, R2, R3; reflexivity.
Qed.

Lemma add_sub_round_trip_on_integers_witness :
  exists v1 v2 : vobj,
    Vector3D.new (PyInt 1) (PyInt (-2)) (PyInt 3) = Return v1
    /\ Vector3D.new (PyInt (2 ^ 52)) (PyInt 5) (PyInt (-3)) = Return v2
    /\ add_sub_round_trip v1 v2 = Return true.
Proof.
  apply (add_sub_round_trip_on_integers 1 (-2) 3 (2 ^ 52) 5 (-3));
    unfold exact_sum; repeat split; vm_compute; reflexivity.
Defined.

(** C7 as stated fails when the sum is rounded: with [v1 = Vector3D(1, 0, 0)]
    and [v2 = Vector3D(2**53, 0, 0)] the sum [1 + 2**53] rounds to [2**53],
    the difference is [0.0], and [v1 + v2 - v2 == v1] is [False]. *)
Lemma add_sub_round_trip_counterexample :
  exists v1 v2 : vobj,
    Vector3D.new (PyInt 1) (PyInt 0) (PyInt 0) = Return v1
    /\ Vector3D.new (PyInt (2 ^ 53)) (PyInt 0) (PyInt 0) = Return v2
    /\ add_sub_round_trip v1 v2 = Return false.
Proof.
  exists (mkV CVector3D 1 0 0), (mkV CVector3D 0x1p53 0 0).
  repeat split; vm_compute; reflexivity.
Qed.

(** Where the round trip is lost whatever the other components are: a NaN
    never compares equal, and adding and subtracting an infinity gives a
    NaN. *)
Lemma component_round_trip_lost :
  forall a b : float,
    component_lost a b = true -> ((a + b - b) =? a)%float = false.
Proof.
  intros a b H.
  rewrite FloatAxioms.eqb_spec, FloatAxioms.sub_spec, FloatAxioms.add_spec.
  unfold component_lost, float_nan, float_finite in H.
  destruct (Prim2SF a) as [[|]|[|]| |sa ma ea];
    destruct (Prim2SF b) as [[|]|[|]| |sb mb eb];
    try discriminate H; reflexivity.
Qed.

Lemma add_sub_round_trip_lost :
  forall v1 v2 : vobj,
    some_component_lost v1 v2 = true ->
    add_sub_round_trip v1 v2 = Return false.
Proof.
  intros v1 v2 H; unfold some_component_lost in H.
  unfold add_sub_round_trip.
  rewrite add_returns; cbn [bind].
  rewrite sub_returns; cbn [bind].
  unfold Vector3D.__eq__, Vector3D.x, Vector3D.y, Vector3D.z in *;
    cbn [_x _y _z].
  apply orb_prop in H; destruct H as [H|H];
    [apply orb_prop in H; destruct H as [H|H]|];
    apply component_round_trip_lost in H; rewrite H;
    rewrite ?andb_false_r; reflexivity.
Qed.

(** A rounded sum does not decide the matter: [2^53 + 2 + 0.5] is rounded
    to [2^53 + 2], and subtracting [0.5] rounds back to [2^53 + 2]. *)
Example rounded_sum_can_round_trip :
  sums_not_rounded (mkV CVector3D 0x1.0000000000001p53 0 0)
                   (mkV CVector3D 0.5 0 0) = false
  /\ add_sub_round_trip (mkV CVector3D 0x1.0000000000001p53 0 0)
                        (mkV CVector3D 0.5 0 0) = Return true.
Proof. split; vm_compute; reflexivity. Qed.

(** * Further properties *)

(** ** The recorder under arbitrary callers *)

(** X1. Each of the four mutating calls is all or nothing: a call that
    raises leaves every attribute of the recorder as it was. *)
Theorem perform_raise_unchanged :
  forall (self self' : TrackStatistics.t) (c : call) (e : exn),
    perform self c = (Raise e, self') -> self' = self.
Proof.
  intros self self' [v|v|v|p r s] e; cbn [perform];
    unfold TrackStatistics.timestep_setter, TrackStatistics.is_completed_setter,
      TrackStatistics.distance_to_end_setter, TrackStatistics.add_data.
  - destruct (isinstance_int_float v); cbn; congruence.
  - destruct (isinstance_bool v); cbn; congruence.
  - destruct (isinstance_int_float v); cbn; [|congruence].
    destruct (float_ v); congruence.
  - destruct (isinstance_Vector3D p), (isinstance_Rotator3D r),
      (isinstance_int_float s); cbn; congruence.
Qed.

Lemma perform_raise_unchanged_witness :
  snd (perform stats0 (SetDistanceToEnd (PyInt (2 ^ 1024)))) = stats0.
Proof.
  apply (perform_raise_unchanged stats0 _
           (SetDistanceToEnd (PyInt (2 ^ 1024)))
           (OverflowError "int too large to convert to float")).
  vm_compute; reflexivity.
Defined.

(** The case of a call that logs nothing. *)
Ltac nothing_added :=
  exists []; rewrite app_nil_r; split; [reflexivity | cbn; lia].

(** One call never touches the waypoints and never shortens the log. *)
Lemma perform_frame :
  forall (self : TrackStatistics.t) (c : call),
    TrackStatistics._waypoints (snd (perform self c))
    = TrackStatistics._waypoints self
    /\ exists added,
         TrackStatistics._data (snd (perform self c))
         = (TrackStatistics._data self ++ added)%list
         /\ (length added <= 1)%nat.
Proof.
  intros self [v|v|v|p r s]; cbn [perform];
    unfold TrackStatistics.timestep_setter, TrackStatistics.is_completed_setter,
      TrackStatistics.distance_to_end_setter, TrackStatistics.add_data.
  - destruct (isinstance_int_float v); cbn; (split; [reflexivity | nothing_added]).
  - destruct (isinstance_bool v); cbn; (split; [reflexivity | nothing_added]).
  - destruct (isinstance_int_float v); cbn; [destruct (float_ v)|]; cbn;
      (split; [reflexivity | nothing_added]).
  - destruct (isinstance_Vector3D p), (isinstance_Rotator3D r),
      (isinstance_int_float s); cbn;
      (split; [reflexivity | try nothing_added]).
    exists [(p, r, s)]; split; [reflexivity | cbn; lia].
Qed.

(** X2. Whatever sequence of assignments and [add_data] calls is made,
    failed ones included, the waypoints of the recorder stay those it was
    built with: nothing in the class assigns [_waypoints] again. *)
Theorem waypoints_never_change :
  forall (cs : list call) (self : TrackStatistics.t),
    TrackStatistics._waypoints (perform_all self cs)
    = TrackStatistics._waypoints self.
Proof.
  unfold perform_all.
  induction cs as [|c cs IH]; intros self; cbn [fold_left]; [reflexivity|].
  rewrite IH; apply perform_frame.
Qed.

(** X3. The log is append-only: after any sequence of calls the log starts
    with the log as it was, and has grown by at most one sample per call. *)
Theorem data_append_only :
  forall (cs : list call) (self : TrackStatistics.t),
    exists added : list TrackStatistics.sample,
      TrackStatistics.data (perform_all self cs)
      = (TrackStatistics.data self ++ added)%list
      /\ (length added <= length cs)%nat.
Proof.
  unfold perform_all, TrackStatistics.data.
  induction cs as [|c cs IH]; intros self; cbn [fold_left].
  - exists []; rewrite app_nil_r; split; [reflexivity | cbn; lia].
  - destruct (IH (snd (perform self c))) as (rest & Hrest & Hlen).
    destruct (perform_frame self c) as (_ & one & Hone & Hlen1).
    exists (one ++ rest)%list; split.
    + rewrite Hrest, Hone, app_assoc; reflexivity.
    + rewrite length_app; cbn [length]; lia.
Qed.

(** One call keeps the attributes well typed. *)
Lemma perform_well_typed :
  forall (self : TrackStatistics.t) (c : call),
    well_typed self = true -> well_typed (snd (perform self c)) = true.
Proof.
  intros self c; unfold well_typed.
  intros H; apply andb_prop in H; destruct H as [H Hd].
  apply andb_prop in H; destruct H as [H Hdist].
  apply andb_prop in H; destruct H as [Ht Hc].
  destruct c as [v|v|v|p r s]; cbn [perform];
    unfold TrackStatistics.timestep_setter, TrackStatistics.is_completed_setter,
      TrackStatistics.distance_to_end_setter, TrackStatistics.add_data.
  - destruct (isinstance_int_float v) eqn:E; cbn;
      rewrite ?E, ?Ht, ?Hc, ?Hdist, ?Hd; reflexivity.
  - destruct (isinstance_bool v) eqn:E; cbn;
      rewrite ?E, ?Ht, ?Hc, ?Hdist, ?Hd; reflexivity.
  - destruct (isinstance_int_float v) eqn:E; cbn; [destruct (float_ v)|]; cbn;
      rewrite ?Ht, ?Hc, ?Hdist, ?Hd; reflexivity.
  - destruct (isinstance_Vector3D p) eqn:Ep, (isinstance_Rotator3D r) eqn:Er,
      (isinstance_int_float s) eqn:Es; cbn;
      rewrite ?Ht, ?Hc, ?Hdist, ?Hd; try reflexivity.
    rewrite forallb_app, Hd; cbn; rewrite Ep, Er, Es; reflexivity.
Qed.

(** X4. From construction on, and through any sequence of calls, [timestep]
    holds a number, [is_completed] a [bool], [distance_to_end] the [int]
    [0] or a [float], and every logged sample is made of an instance of
    [Vector3D], an instance of [Rotator3D] and a number. *)
Theorem attributes_stay_well_typed :
  forall (track : Track) (timestep : PyVal) (self : TrackStatistics.t)
         (cs : list call),
    TrackStatistics.new track timestep = Return self ->
    well_typed (perform_all self cs) = true.
Proof.
  intros track timestep self cs Hnew.
  assert (H0 : well_typed self = true).
  { revert Hnew.
    unfold TrackStatistics.new, TrackStatistics.__init__,
      TrackStatistics.timestep_setter.
    destruct (isinstance_int_float timestep) eqn:E; cbn; [|discriminate].
    intros H; inversion H; subst; unfold well_typed; cbn.
    rewrite E; reflexivity. }
  clear Hnew; revert self H0; unfold perform_all.
  induction cs as [|c cs IH]; intros self H0; cbn [fold_left]; [exact H0|].
  apply IH, perform_well_typed, H0.
Qed.

Lemma attributes_stay_well_typed_witness :
  well_typed
    (perform_all stats0
       [SetIsCompleted (PyInt 1); AddData (PyObj origin) (PyObj level) (PyInt 5);
        SetDistanceToEnd (PyInt 3); SetTimestep (PyStr "fast")]) = true.
Proof.
  apply (attributes_stay_well_typed
           (mkTrack [mkV CVector3D 0 0 0; mkV CVector3D 1 1 1; mkV CVector3D 2 2 2])
           (PyFloat 0.5) stats0).
  reflexivity.
Defined.

(** X5. Samples that pass the three checks are logged in the order of the
    calls: logging them one after the other leaves the old log followed by
    exactly these samples, and changes no other attribute. *)
Theorem samples_logged_in_call_order :
  forall (samples : list TrackStatistics.sample) (self : TrackStatistics.t),
    forallb sample_ok samples = true ->
    perform_all self (map add_data_call samples)
    = TrackStatistics.mk
        (TrackStatistics._timestep self) (TrackStatistics._waypoints self)
        (TrackStatistics._is_completed self)
        (TrackStatistics._distance_to_end self)
        (TrackStatistics._data self ++ samples).
Proof.
  unfold perform_all.
  induction samples as [|[[p r] s] samples IH]; intros self Hok;
    cbn [map fold_left].
  - rewrite app_nil_r; destruct self; reflexivity.
  - cbn [forallb sample_ok] in Hok.
    apply andb_prop in Hok; destruct Hok as [Hs Hok].
    apply andb_prop in Hs; destruct Hs as [Hs Hspeed].
    apply andb_prop in Hs; destruct Hs as [Hp Hr].
    cbn [add_data_call perform]; unfold TrackStatistics.add_data.
    rewrite Hp, Hr, Hspeed; cbn [negb snd].
    rewrite (IH _ Hok); cbn.
    rewrite <- app_assoc; reflexivity.
Qed.

Lemma samples_logged_in_call_order_witness :
  TrackStatistics.data (perform_all stats0 (map add_data_call two_samples))
  = two_samples.
Proof.
  rewrite (samples_logged_in_call_order two_samples stats0 eq_refl).
  reflexivity.
Defined.

(** X6. [TrackStatistics(track, timestep)] succeeds exactly when [timestep]
    is an [int] or a [float], and then holds the timestep as received, the
    waypoints of the track, [False], the [int] [0] and an empty log; the
    sign of the timestep is not checked, so zero and negative timesteps are
    accepted.  Otherwise it raises the [TypeError] of the [timestep]
    setter. *)
Theorem construction_checks_kind_only :
  forall (track : Track) (timestep : PyVal),
    (isinstance_int_float timestep = true ->
     TrackStatistics.new track timestep
     = Return (TrackStatistics.mk timestep (waypoints track)
                 (PyBool false) (PyInt 0) []))
    /\ (isinstance_int_float timestep = false ->
        TrackStatistics.new track timestep
        = Raise (TypeError
            ("expected type Union[int, float] for TrackStatistics.timestep but got "
             ++ type_name timestep ++ " instead")))
    /\ (forall n : Z,
          TrackStatistics.new track (PyInt n)
          = Return (TrackStatistics.mk (PyInt n) (waypoints track)
                      (PyBool false) (PyInt 0) [])).
Proof.
  intros track timestep.
  unfold TrackStatistics.new, TrackStatistics.__init__,
    TrackStatistics.timestep_setter.
  split; [|split].
  - intros ->; reflexivity.
  - intros ->; reflexivity.
  - intros n; reflexivity.
Qed.

Lemma construction_checks_kind_only_witness :
  TrackStatistics.new (mkTrack [origin]) (PyInt (-3))
  = Return (TrackStatistics.mk (PyInt (-3)) [origin] (PyBool false) (PyInt 0) [])
  /\ TrackStatistics.new (mkTrack [origin]) PyNone
     = Raise (TypeError
         "expected type Union[int, float] for TrackStatistics.timestep but got NoneType instead").
Proof.
  split.
  - apply (proj1 (construction_checks_kind_only (mkTrack [origin]) (PyInt (-3))));
      reflexivity.
  - apply (proj1 (proj2 (construction_checks_kind_only (mkTrack [origin]) PyNone)));
      reflexivity.
Defined.

(** ** Facts of binary64 arithmetic *)

(** *** Comparison *)

Lemma nan_unique : forall x : float, Prim2SF x = S754_nan -> x = nan.
Proof.
  intros x H; apply Prim2SF_inj; rewrite H; reflexivity.
Qed.

Lemma float_eqb_refl_iff :
  forall x : float, (x =? x)%float = true <-> x <> nan.
Proof.
  intros x; rewrite FloatAxioms.eqb_spec, SFeqb_refl; split.
  - intros H E; subst x; discriminate H.
  - intros H; destruct (Prim2SF x) eqn:E; try reflexivity.
    exfalso; apply H, nan_unique, E.
Qed.

Lemma SFcompare_Eq_sym :
  forall x y, SFcompare x y = Some Eq -> SFcompare y x = Some Eq.
Proof.
  intros [[|]|[|]| |[|] m1 e1] [[|]|[|]| |[|] m2 e2]; cbn; try congruence;
    destruct (e1 ?= e2)%Z eqn:E; try discriminate;
    apply Z.compare_eq in E; subst e2;
    change (Pos.compare_cont Eq m1 m2) with (m1 ?= m2)%positive;
    destruct (m1 ?= m2)%positive eqn:E2; try discriminate;
    apply Pos.compare_eq in E2; subst m2; intros _;
    rewrite Z.compare_refl, Pos.compare_cont_refl; reflexivity.
Qed.

Lemma SFeqb_sym : forall x y, SFeqb x y = SFeqb y x.
Proof.
  intros x y; unfold SFeqb.
  destruct (SFcompare x y) as [[| |]|] eqn:E1.
  - rewrite (SFcompare_Eq_sym _ _ E1); reflexivity.
  - destruct (SFcompare y x) as [[| |]|] eqn:E2; try reflexivity.
    rewrite (SFcompare_Eq_sym _ _ E2) in E1; discriminate.
  - destruct (SFcompare y x) as [[| |]|] eqn:E2; try reflexivity.
    rewrite (SFcompare_Eq_sym _ _ E2) in E1; discriminate.
  - destruct (SFcompare y x) as [[| |]|] eqn:E2; try reflexivity.
    rewrite (SFcompare_Eq_sym _ _ E2) in E1; discriminate.
Qed.

Lemma float_eqb_sym : forall x y : float, (x =? y)%float = (y =? x)%float.
Proof. intros; rewrite !FloatAxioms.eqb_spec; apply SFeqb_sym. Qed.

(** *** Negation, absolute value, sum and difference *)

Lemma float_opp_involutive : forall x : float, (- - x)%float = x.
Proof.
  intros x; apply Prim2SF_inj; rewrite !opp_spec.
  destruct (Prim2SF x); cbn; rewrite ?negb_involutive; reflexivity.
Qed.

Lemma float_abs_idempotent :
  forall x : float, PrimFloat.abs (PrimFloat.abs x) = PrimFloat.abs x.
Proof.
  intros x; apply Prim2SF_inj; rewrite !abs_spec.
  destruct (Prim2SF x); reflexivity.
Qed.

Lemma float_abs_opp :
  forall x : float, PrimFloat.abs (- x) = PrimFloat.abs x.
Proof.
  intros x; apply Prim2SF_inj; rewrite !abs_spec, opp_spec.
  destruct (Prim2SF x); reflexivity.
Qed.

Lemma SFadd_comm : forall x y, SFadd prec emax x y = SFadd prec emax y x.
Proof.
  intros [[|]|[|]| |sx mx ex] [[|]|[|]| |sy my ey]; try reflexivity.
  unfold SFadd; rewrite (Z.min_comm ey ex), Z.add_comm; reflexivity.
Qed.

Lemma float_add_comm : forall x y : float, (x + y)%float = (y + x)%float.
Proof.
  intros x y; apply Prim2SF_inj; rewrite !FloatAxioms.add_spec.
  apply SFadd_comm.
Qed.

Lemma SFsub_diag :
  forall x,
    SFsub prec emax x x = if is_finite_sf x then S754_zero false else S754_nan.
Proof.
  intros [[|]|[|]| |s m e]; try reflexivity.
  unfold SFsub; rewrite Z.sub_diag; reflexivity.
Qed.

Lemma float_sub_diag :
  forall x : float,
    (x - x)%float = if float_finite x then 0%float else nan.
Proof.
  intros x; apply Prim2SF_inj; rewrite FloatAxioms.sub_spec.
  unfold SF64sub, float_finite; rewrite SFsub_diag.
  destruct (is_finite_sf (Prim2SF x)); reflexivity.
Qed.

(** *** The unit of multiplication and division *)






(** *** Integer parts *)

Lemma shiftl_neg_exact :
  forall a j, 0 <= j -> Z.shiftl (a * 2 ^ j) (- j) = a.
Proof.
  intros a j Hj.
  rewrite Z.shiftl_div_pow2 by lia.
  rewrite Z.opp_involutive, Z.div_mul; [reflexivity|].
  apply Z.pow_nonzero; lia.
Qed.

Lemma to_pos_shift :
  forall q j, 0 <= j -> Zpos (Z.to_pos (Zpos q * 2 ^ j)) = Zpos q * 2 ^ j.
Proof.
  intros q j Hj; apply Z2Pos.id.
  apply Z.mul_pos_pos; [lia | apply Z.pow_pos_nonneg; lia].
Qed.

Lemma div_abs_bound :
  forall a p, 0 < p -> Z.abs (a / p) <= Z.abs a / p + 1.
Proof.
  intros a p Hp.
  pose proof (Z.div_mod a p ltac:(lia)) as H1.
  pose proof (Z.mod_pos_bound a p Hp) as H2.
  pose proof (Z.div_mod (Z.abs a) p ltac:(lia)) as H3.
  pose proof (Z.mod_pos_bound (Z.abs a) p Hp) as H4.
  nia.
Qed.

Lemma floor_integer_part :
  integer_part (fun s m e => Z.shiftl (cond_Zopp s (Zpos m)) e).
Proof.
  split; [|split].
  - intros s m e He; apply Z.shiftl_mul_pow2, He.
  - intros s m e He; rewrite Z.shiftl_div_pow2 by lia.
    assert (Hp : 0 < 2 ^ (- e)) by (apply Z.pow_pos_nonneg; lia).
    pose proof (div_abs_bound (cond_Zopp s (Zpos m)) _ Hp) as H.
    destruct s; cbn [cond_Zopp] in *; cbn [Z.abs Z.opp] in H; exact H.
  - intros s q j Hj; rewrite to_pos_shift by exact Hj.
    destruct s; cbn [cond_Zopp].
    + rewrite <- Z.mul_opp_l; apply shiftl_neg_exact, Hj.
    + apply shiftl_neg_exact, Hj.
Qed.

Lemma ceil_integer_part :
  integer_part (fun s m e => - Z.shiftl (cond_Zopp (negb s) (Zpos m)) e).
Proof.
  destruct floor_integer_part as (F1 & F2 & F3).
  split; [|split].
  - intros s m e He; rewrite (F1 (negb s) m e He).
    destruct s; cbn [cond_Zopp negb]; lia.
  - intros s m e He; rewrite Z.abs_opp; apply (F2 (negb s) m e He).
  - intros s q j Hj; rewrite (F3 (negb s) q j Hj).
    destruct s; cbn [cond_Zopp negb]; lia.
Qed.

Lemma trunc_integer_part :
  integer_part (fun s m e => cond_Zopp s (Z.shiftl (Zpos m) e)).
Proof.
  split; [|split].
  - intros s m e He; rewrite Z.shiftl_mul_pow2 by exact He.
    destruct s; cbn [cond_Zopp]; lia.
  - intros s m e He; rewrite Z.shiftl_div_pow2 by lia.
    assert (Hp : 0 < 2 ^ (- e)) by (apply Z.pow_pos_nonneg; lia).
    assert (0 <= Zpos m / 2 ^ (- e)) by (apply Z.div_pos; lia).
    destruct s; cbn [cond_Zopp]; lia.
  - intros s q j Hj; rewrite to_pos_shift, shiftl_neg_exact by exact Hj.
    reflexivity.
Qed.

Lemma canonical_bound :
  forall m e,
    fexp prec emax (Zpos (digits2_pos m) + e) = e -> Zpos m < 2 ^ 53.
Proof.
  intros m e Hc.
  assert (Hd : Zpos (digits2_pos m) <= 53)
    by (revert Hc; unfold fexp, emin, prec, emax; lia).
  rewrite digits2_pos_log2 in Hd.
  pose proof (Z.log2_spec (Zpos m) ltac:(lia)) as [_ H].
  apply Z.lt_le_trans with (1 := H).
  apply Z.pow_le_mono_r; lia.
Qed.

(** An integer that is a binary64 number converts to that number. *)
Lemma round_int_representable :
  forall s m e,
    fexp prec emax (Zpos (digits2_pos m) + e) = e -> 0 <= e <= 971 ->
    round_int (cond_Zopp s (Zpos m) * 2 ^ e) = S754_finite s m e.
Proof.
  intros s m e Hc He.
  assert (Hp : 0 < 2 ^ e) by (apply Z.pow_pos_nonneg; lia).
  assert (Hr : forall mx, Zpos mx = Zpos m * 2 ^ e ->
               binary_round prec emax s mx 0 = S754_finite s m e).
  { intros mx Hmx; unfold binary_round.
    rewrite (digits2_pos_shift mx m e (proj1 He) Hmx), Z.add_0_r, Hc.
    pose proof (round_aux_representable s m e e mx Hc (proj2 He) (proj1 He) Hmx)
      as H.
    rewrite Z.sub_diag in H.
    unfold shl_align; rewrite Z.sub_0_r.
    destruct e as [|pe|pe]; try lia; exact H. }
  unfold round_int, binary_normalize.
  destruct s; cbn [cond_Zopp].
  - destruct (- Zpos m * 2 ^ e) as [|mx|mx] eqn:E; try lia.
    apply Hr; lia.
  - destruct (Zpos m * 2 ^ e) as [|mx|mx] eqn:E; try lia.
    apply Hr; lia.
Qed.

Section IntegerPart.

Variables round_to round_to' : bool -> positive -> Z -> Z.
Hypothesis Hrt : integer_part round_to.
Hypothesis Hrt' : integer_part round_to'.

(** The conversion to [int] answers exactly on the finite numbers. *)
Lemma float_to_int_finite :
  forall f,
    float_finite f = true <-> exists n, float_to_int round_to f = MReturn n.
Proof.
  intros f; unfold float_finite, float_to_int.
  destruct (Prim2SF f); cbn; split; intros H;
    try discriminate; try reflexivity; try (eexists; reflexivity);
    destruct H as [n H]; discriminate.
Qed.

(** The integer part of a number converts back to a [float], whose integer
    part, by any of the three functions, is that integer again. *)
Lemma float_to_int_back :
  forall f n,
    float_to_int round_to f = MReturn n ->
    exists g, float_of_int n = Return g /\ float_to_int round_to' g = MReturn n.
Proof.
  intros f n; unfold float_to_int at 1.
  pose proof (Prim2SF_valid f) as Hv.
  destruct (Prim2SF f) as [s|s| |s m e]; try discriminate;
    intros H; inversion H; subst n; clear H.
  - exists 0%float; split; reflexivity.
  - destruct (valid_finite s m e Hv) as [Hc He].
    destruct Hrt as (R1 & R2 & _), Hrt' as (R1' & _ & R3').
    destruct (Z.le_gt_cases 0 e) as [Hpos|Hneg].
    + rewrite (R1 s m e Hpos).
      exists (SF2Prim (S754_finite s m e)); split.
      * unfold float_of_int.
        rewrite round_int_representable by (assumption || lia).
        reflexivity.
      * unfold float_to_int; rewrite Prim2SF_SF2Prim by exact Hv.
        rewrite (R1' s m e Hpos); reflexivity.
    + assert (Hn : Z.abs (round_to s m e) < 2 ^ 53).
      { pose proof (R2 s m e Hneg) as Hb.
        pose proof (canonical_bound m e Hc) as Hm.
        assert (Zpos m / 2 ^ (- e) <= Zpos m / 2 ^ 1).
        { apply Z.div_le_compat_l; [lia|]; split; [lia|].
          apply Z.pow_le_mono_r; lia. }
        assert (Zpos m / 2 ^ 1 < 2 ^ 52)
          by (apply Z.div_lt_upper_bound; lia).
        lia. }
      destruct (float_of_int_small _ Hn) as [Hf Hs].
      exists (SF2Prim (round_int (round_to s m e))); split; [exact Hf|].
      unfold float_to_int; rewrite Hs, (round_int_canon _ Hn).
      destruct (round_to s m e) as [|q|q]; [reflexivity| |];
        unfold canon;
        assert (Hq : Zpos q < 2 ^ 53) by (cbn in Hn; lia);
        pose proof (digits2_pos_bound q Hq) as Hd;
        replace (Zpos (digits2_pos q) - 53)
          with (- (53 - Zpos (digits2_pos q))) by lia;
        rewrite R3' by lia; reflexivity.
Qed.

End IntegerPart.

(** ** Equality and truth value of vectors *)

(** X7. On any two vectors [!=] answers the opposite of [==], also when
    components are NaN. *)
Theorem ne_is_not_eq :
  forall v w : vobj, Vector3D.__ne__ v w = negb (Vector3D.__eq__ v w).
Proof.
  intros v w; unfold Vector3D.__ne__, Vector3D.__eq__.
  rewrite !negb_andb; reflexivity.
Qed.

(** X8. [v == v] is [True] exactly when no component of [v] is a NaN. *)
Theorem eq_reflexive_iff_no_nan :
  forall v : vobj,
    Vector3D.__eq__ v v = true
    <-> Vector3D.x v <> nan /\ Vector3D.y v <> nan /\ Vector3D.z v <> nan.
Proof.
  intros v; unfold Vector3D.__eq__.
  rewrite !andb_true_iff, !float_eqb_refl_iff; tauto.
Qed.

(** X9. [==] is symmetric, and blind to the classes of its operands: it
    reads the components only. *)
Theorem eq_symmetric :
  forall v w : vobj,
    Vector3D.__eq__ v w = Vector3D.__eq__ w v
    /\ Vector3D.__eq__ v w = Vector3D.__eq__ (copy v) (copy w).
Proof.
  intros v w; unfold Vector3D.__eq__; split; [|reflexivity].
  rewrite (float_eqb_sym (Vector3D.x v)), (float_eqb_sym (Vector3D.y v)),
    (float_eqb_sym (Vector3D.z v)); reflexivity.
Qed.

(** X10. The truth value of a vector is that of [v != Vector3D(0, 0, 0)]:
    it is [False] exactly when the three components are zeros of either
    sign, and a NaN component makes the vector true. *)
Theorem bool_is_ne_zero :
  forall v : vobj,
    Vector3D.__bool__ v = Vector3D.__ne__ v (mkV CVector3D 0 0 0)
    /\ (Vector3D.__bool__ v = false
        <-> (Vector3D.x v =? 0)%float = true
            /\ (Vector3D.y v =? 0)%float = true
            /\ (Vector3D.z v =? 0)%float = true)
    /\ (Vector3D.x v = nan \/ Vector3D.y v = nan \/ Vector3D.z v = nan ->
        Vector3D.__bool__ v = true).
Proof.
  intros v.
  assert (H : Vector3D.__bool__ v
              = negb (Vector3D.x v =? 0)%float
                || negb (Vector3D.y v =? 0)%float
                || negb (Vector3D.z v =? 0)%float).
  { unfold Vector3D.__bool__, float_or, float_bool,
      Vector3D.x, Vector3D.y, Vector3D.z.
    destruct (_x v =? 0)%float eqn:Ex; cbn [negb orb];
      destruct (_y v =? 0)%float eqn:Ey;
      repeat (rewrite ?Ex, ?Ey; cbn [negb orb]); reflexivity. }
  split; [exact H|]; split.
  - rewrite H, !orb_false_iff, !negb_false_iff; tauto.
  - rewrite H; intros [E|[E|E]]; rewrite E; cbn;
      rewrite ?orb_true_r; reflexivity.
Qed.

Lemma bool_is_ne_zero_witness :
  Vector3D.__bool__ (mkV CVector3D 0 nan 0) = true.
Proof.
  apply (proj2 (proj2 (bool_is_ne_zero (mkV CVector3D 0 nan 0)))).
  right; left; reflexivity.
Defined.

(** ** What the operators return *)

(** The constructor on three [float]s. *)
Lemma new_floats :
  forall a b c : float,
    Vector3D.new (PyFloat a) (PyFloat b) (PyFloat c)
    = Return (mkV CVector3D a b c).
Proof. reflexivity. Qed.

(** Whatever [Vector3D(...)] returns is an instance of [Vector3D] itself. *)
Lemma new_class :
  forall (a b c : PyVal) (r : vobj),
    Vector3D.new a b c = Return r -> __class__ r = CVector3D.
Proof.
  intros a b c r.
  unfold Vector3D.new, Vector3D.__init__, Vector3D.x_setter,
    Vector3D.y_setter, Vector3D.z_setter.
  destruct (isinstance_int_float a); cbn; [|discriminate].
  destruct (float_ a); cbn; [|discriminate].
  destruct (isinstance_int_float b); cbn; [|discriminate].
  destruct (float_ b); cbn; [|discriminate].
  destruct (isinstance_int_float c); cbn; [|discriminate].
  destruct (float_ c); cbn; [|discriminate].
  intros H; inversion H; reflexivity.
Qed.

(** A scalar operator returns what the constructor returns. *)
Lemma scalar_class :
  forall (op : float -> PyVal -> Result PyVal) (self : vobj) (other : PyVal)
         (r : vobj),
    (a <- op (Vector3D.x self) other ;;
     b <- op (Vector3D.y self) other ;;
     c <- op (Vector3D.z self) other ;;
     Vector3D.new a b c) = Return r ->
    __class__ r = CVector3D.
Proof.
  intros op self other r.
  destruct (op (Vector3D.x self) other) as [a|]; cbn; [|discriminate].
  destruct (op (Vector3D.y self) other) as [b|]; cbn; [|discriminate].
  destruct (op (Vector3D.z self) other) as [c|]; cbn; [|discriminate].
  apply new_class.
Qed.

(** X11. Every arithmetic operator builds its result with [Vector3D(...)]:
    whatever it returns is a plain [Vector3D], also when the operands are
    instances of [Rotator3D]. *)
Theorem arithmetic_returns_plain_vector :
  forall (self other : vobj) (scalar : PyVal) (r : vobj)
         (float_floordiv float_mod float_pow : float -> float -> Result PyVal),
    (Vector3D.__add__ self other = Return r -> __class__ r = CVector3D)
    /\ (Vector3D.__sub__ self other = Return r -> __class__ r = CVector3D)
    /\ (Vector3D.__mul__ self scalar = Return r -> __class__ r = CVector3D)
    /\ (Vector3D.__rmul__ self scalar = Return r -> __class__ r = CVector3D)
    /\ (Vector3D.__truediv__ self scalar = Return r -> __class__ r = CVector3D)
    /\ (Vector3D.__floordiv__ float_floordiv self scalar = Return r ->
        __class__ r = CVector3D)
    /\ (Vector3D.__mod__ float_mod self scalar = Return r ->
        __class__ r = CVector3D)
    /\ (Vector3D.__pow__ float_pow self scalar = Return r ->
        __class__ r = CVector3D)
    /\ (Vector3D.__abs__ self = Return r -> __class__ r = CVector3D)
    /\ (Vector3D.__neg__ self = Return r -> __class__ r = CVector3D)
    /\ (Vector3D.__pos__ self = Return r -> __class__ r = CVector3D).
Proof.
  intros self other scalar r fd fm fp.
  unfold Vector3D.__add__, Vector3D.__sub__, Vector3D.__mul__,
    Vector3D.__rmul__, Vector3D.__truediv__, Vector3D.__floordiv__,
    Vector3D.__mod__, Vector3D.__pow__, Vector3D.__abs__, Vector3D.__neg__,
    Vector3D.__pos__.
  repeat split; try apply new_class;
    destruct (isinstance_int_float scalar); cbn [negb];
    try discriminate; apply scalar_class.
Qed.

Lemma arithmetic_returns_plain_vector_witness :
  __class__ (mkV CVector3D 2 4 6) = CVector3D
  /\ Vector3D.__add__ (mkV CRotator3D 1 2 3) (mkV CRotator3D 1 2 3)
     = Return (mkV CVector3D 2 4 6).
Proof.
  split; [|reflexivity].
  apply (proj1 (arithmetic_returns_plain_vector
                  (mkV CRotator3D 1 2 3) (mkV CRotator3D 1 2 3) PyNone
                  (mkV CVector3D 2 4 6)
                  (fun _ _ => Return PyNone) (fun _ _ => Return PyNone)
                  (fun _ _ => Return PyNone))).
  reflexivity.
Defined.

(** X12. The sum of two rotations is not a rotation for [add_data]: with
    any two vectors [r1] and [r2], instances of [Rotator3D] or not,
    [add_data(position, r1 + r2, speed)] raises the [TypeError] of the
    rotation check and logs nothing. *)
Theorem rotation_sum_rejected_by_add_data :
  forall (st : TrackStatistics.t) (position speed : PyVal) (r1 r2 : vobj),
    isinstance_Vector3D position = true ->
    exists total : vobj,
      Vector3D.__add__ r1 r2 = Return total
      /\ TrackStatistics.add_data st position (PyObj total) speed
         = (Raise (TypeError
             "expected type Rotator3D for TrackStatistics.add_data but got Vector3D instead"),
            st).
Proof.
  intros st position speed r1 r2 Hp.
  rewrite add_returns; eexists; split; [reflexivity|].
  unfold TrackStatistics.add_data; rewrite Hp; reflexivity.
Qed.

Lemma rotation_sum_rejected_by_add_data_witness :
  exists total : vobj,
    Vector3D.__add__ level level = Return total
    /\ snd (TrackStatistics.add_data stats0 (PyObj origin) (PyObj total) (PyInt 1))
       = stats0.
Proof.
  destruct (rotation_sum_rejected_by_add_data
              stats0 (PyObj origin) (PyInt 1) level level eq_refl)
    as (total & Hsum & Hcall).
  exists total; split; [exact Hsum|].
  rewrite Hcall; reflexivity.
Defined.

(** ** Algebra of the operators *)

(** Equal floats are the same in the sense of [same_float]. *)
Lemma same_float_refl : forall a : float, same_float a a.
Proof.
  intros a; unfold same_float.
  destruct (Prim2SF a) eqn:E;
    try (right; repeat split; try reflexivity;
         intros H; rewrite H in E; discriminate E).
  left; split; apply nan_unique, E.
Qed.

(** X13. Negating twice gives back the vector as a [Vector3D]: in [-(-v)]
    a component of [v] that is a number comes back as that number, the sign
    of a zero included, and a component that is a NaN comes back as a
    NaN. *)
Theorem neg_involution :
  forall v : vobj,
    exists n r : vobj,
      Vector3D.__neg__ v = Return n
      /\ Vector3D.__neg__ n = Return r
      /\ same_vector r (copy v).
Proof.
  intros v; unfold Vector3D.__neg__; rewrite new_floats.
  eexists; eexists; split; [reflexivity|].
  rewrite new_floats; split; [reflexivity|].
  unfold same_vector, copy, Vector3D.x, Vector3D.y, Vector3D.z; cbn.
  rewrite !float_opp_involutive.
  repeat split; apply same_float_refl.
Qed.

(** X14. [abs] is idempotent and does not see the sign: [abs(abs(v))] and
    [abs(-v)] have exactly the components of [abs(v)]. *)
Theorem abs_idempotent_and_even :
  forall v : vobj,
    exists a n : vobj,
      Vector3D.__abs__ v = Return a
      /\ Vector3D.__neg__ v = Return n
      /\ Vector3D.__abs__ a = Return a
      /\ Vector3D.__abs__ n = Return a.
Proof.
  intros v; unfold Vector3D.__abs__, Vector3D.__neg__; rewrite !new_floats.
  eexists; eexists; split; [reflexivity|]; split; [reflexivity|].
  rewrite !new_floats; unfold Vector3D.x, Vector3D.y, Vector3D.z; cbn.
  rewrite !float_abs_idempotent, !float_abs_opp; split; reflexivity.
Qed.

(** X15. Vector addition is commutative up to the identity of NaNs:
    [v + w] and [w + v] are two [Vector3D] objects in which each component
    is a NaN in both, or the same number, with the same sign, in both. *)
Theorem add_commutative :
  forall v w : vobj,
    exists s t : vobj,
      Vector3D.__add__ v w = Return s
      /\ Vector3D.__add__ w v = Return t
      /\ same_vector s t.
Proof.
  intros v w; rewrite !add_returns.
  eexists; eexists; split; [reflexivity|]; split; [reflexivity|].
  unfold same_vector, Vector3D.x, Vector3D.y, Vector3D.z; cbn.
  rewrite (float_add_comm (_x v)), (float_add_comm (_y v)),
    (float_add_comm (_z v)).
  repeat split; apply same_float_refl.
Qed.

(** X16. [v - v] has [0.0] where the component of [v] is finite and a NaN
    where it is infinite or a NaN; so it is the zero vector, which is
    false, exactly for the vectors with finite components. *)
Theorem sub_self :
  forall v : vobj,
    Vector3D.__sub__ v v
    = Return (mkV CVector3D
                (if float_finite (Vector3D.x v) then 0%float else nan)
                (if float_finite (Vector3D.y v) then 0%float else nan)
                (if float_finite (Vector3D.z v) then 0%float else nan))
    /\ (all_finite v = true ->
        exists d : vobj,
          Vector3D.__sub__ v v = Return d
          /\ d = mkV CVector3D 0 0 0 /\ Vector3D.__bool__ d = false).
Proof.
  intros v.
  assert (H : Vector3D.__sub__ v v
              = Return (mkV CVector3D
                  (if float_finite (Vector3D.x v) then 0%float else nan)
                  (if float_finite (Vector3D.y v) then 0%float else nan)
                  (if float_finite (Vector3D.z v) then 0%float else nan))).
  { rewrite sub_returns, !float_sub_diag; reflexivity. }
  split; [exact H|].
  unfold all_finite; intros Hf.
  apply andb_prop in Hf; destruct Hf as [Hf Hz].
  apply andb_prop in Hf; destruct Hf as [Hx Hy].
  rewrite H, Hx, Hy, Hz.
  eexists; split; [reflexivity|]; split; reflexivity.
Qed.

Lemma sub_self_witness :
  exists d : vobj,
    Vector3D.__sub__ (mkV CRotator3D 1 2 3) (mkV CRotator3D 1 2 3) = Return d
    /\ d = mkV CVector3D 0 0 0.
Proof.
  destruct (proj2 (sub_self (mkV CRotator3D 1 2 3)) eq_refl)
    as (d & Hsub & Hd & _).
  exists d; split; [exact Hsub | exact Hd].
Defined.


(** ** Errors of the scalar operators *)

(** X18. Dividing a vector by a zero (the [int] [0], [0.0], [-0.0] or
    [False]) raises [ZeroDivisionError], whatever the vector: no vector of
    infinities or NaNs is returned. *)
Theorem truediv_by_zero_raises :
  forall (v : vobj) (other : PyVal) (g : float),
    float_ other = Return g ->
    (g =? 0)%float = true ->
    Vector3D.__truediv__ v other
    = Raise (ZeroDivisionError "float division by zero").
Proof.
  intros v other g Hg Hz.
  unfold Vector3D.__truediv__, float_truediv.
  rewrite (float_numeric other g Hg), Hg; cbn.
  rewrite Hz; reflexivity.
Qed.

Lemma truediv_by_zero_raises_witness :
  Vector3D.__truediv__ (mkV CVector3D 1 2 3) (PyInt 0)
  = Raise (ZeroDivisionError "float division by zero")
  /\ Vector3D.__truediv__ (mkV CVector3D 1 2 3) (PyFloat (-0))
     = Raise (ZeroDivisionError "float division by zero")
  /\ Vector3D.__truediv__ (mkV CVector3D 1 2 3) (PyBool false)
     = Raise (ZeroDivisionError "float division by zero").
Proof.
  split; [|split].
  - apply (truediv_by_zero_raises _ (PyInt 0) 0%float); reflexivity.
  - apply (truediv_by_zero_raises _ (PyFloat (-0)) (-0)%float); reflexivity.
  - apply (truediv_by_zero_raises _ (PyBool false) 0%float); reflexivity.
Defined.

(** X19. A right operand that is neither an [int] nor a [float], another
    vector included, is refused by each of the six scalar operators with
    its own [TypeError], before any component is read; [//] shares the text
    of [/]. *)
Theorem scalar_operators_reject_non_numbers :
  forall (v : vobj) (other : PyVal)
         (float_floordiv float_mod float_pow : float -> float -> Result PyVal),
    isinstance_int_float other = false ->
    Vector3D.__mul__ v other
    = Raise (TypeError "only scalars are supported for multiplication")
    /\ Vector3D.__rmul__ v other
       = Raise (TypeError "only scalars are supported for multiplication")
    /\ Vector3D.__truediv__ v other
       = Raise (TypeError "only scalars are supported for division")
    /\ Vector3D.__floordiv__ float_floordiv v other
       = Raise (TypeError "only scalars are supported for division")
    /\ Vector3D.__mod__ float_mod v other
       = Raise (TypeError "only scalars are supported for modulo")
    /\ Vector3D.__pow__ float_pow v other
       = Raise (TypeError "only scalars are supported for exponentiation").
Proof.
  intros v other fd fm fp H.
  unfold Vector3D.__mul__, Vector3D.__rmul__, Vector3D.__truediv__,
    Vector3D.__floordiv__, Vector3D.__mod__, Vector3D.__pow__.
  rewrite H; repeat split.
Qed.

Lemma scalar_operators_reject_non_numbers_witness :
  Vector3D.__mul__ (mkV CVector3D 1 2 3) (PyObj (mkV CVector3D 1 2 3))
  = Raise (TypeError "only scalars are supported for multiplication").
Proof.
  apply (scalar_operators_reject_non_numbers
           (mkV CVector3D 1 2 3) (PyObj (mkV CVector3D 1 2 3))
           (fun _ _ => Return PyNone) (fun _ _ => Return PyNone)
           (fun _ _ => Return PyNone) eq_refl).
Defined.

(** X20. An [int] too large for a [float] passes the kind check of the
    scalar operators and then fails in the conversion: each of the six
    operators raises the [OverflowError] of [float(n)], not a
    [TypeError]. *)
Theorem scalar_operators_overflow :
  forall (v : vobj) (n : Z) (e : exn)
         (float_floordiv float_mod float_pow : float -> float -> Result PyVal),
    float_of_int n = Raise e ->
    Vector3D.__mul__ v (PyInt n) = Raise e
    /\ Vector3D.__rmul__ v (PyInt n) = Raise e
    /\ Vector3D.__truediv__ v (PyInt n) = Raise e
    /\ Vector3D.__floordiv__ float_floordiv v (PyInt n) = Raise e
    /\ Vector3D.__mod__ float_mod v (PyInt n) = Raise e
    /\ Vector3D.__pow__ float_pow v (PyInt n) = Raise e.
Proof.
  intros v n e fd fm fp H.
  unfold Vector3D.__mul__, Vector3D.__rmul__, Vector3D.__truediv__,
    Vector3D.__floordiv__, Vector3D.__mod__, Vector3D.__pow__,
    float_mul, float_truediv, Vector3D.float_binop.
  cbn; rewrite H; repeat split.
Qed.

Lemma scalar_operators_overflow_witness :
  Vector3D.__mul__ (mkV CVector3D 1 2 3) (PyInt (2 ^ 1024))
  = Raise (OverflowError "int too large to convert to float").
Proof.
  apply (scalar_operators_overflow (mkV CVector3D 1 2 3) (2 ^ 1024)
           (OverflowError "int too large to convert to float")
           (fun _ _ => Return PyNone) (fun _ _ => Return PyNone)
           (fun _ _ => Return PyNone)).
  vm_compute; reflexivity.
Defined.

(** ** [floor], [ceil] and [trunc] of a vector *)

Section RoundComponents.

Variable round_to : bool -> positive -> Z -> Z.
Hypothesis Hrt : integer_part round_to.

(** The method returns exactly on the vectors with finite components. *)
Lemma round_components_finite :
  forall v : vobj,
    (exists r, round_components round_to v = MReturn r)
    <-> all_finite v = true.
Proof.
  intros v; unfold round_components, all_finite; split.
  - intros [r H].
    destruct (float_to_int round_to (Vector3D.x v)) as [a| |] eqn:Ex;
      cbn [mbind] in H; try discriminate.
    destruct (float_to_int round_to (Vector3D.y v)) as [b| |] eqn:Ey;
      cbn [mbind] in H; try discriminate.
    destruct (float_to_int round_to (Vector3D.z v)) as [c| |] eqn:Ez;
      cbn [mbind] in H; try discriminate.
    rewrite (proj2 (float_to_int_finite round_to _) (ex_intro _ a Ex)),
      (proj2 (float_to_int_finite round_to _) (ex_intro _ b Ey)),
      (proj2 (float_to_int_finite round_to _) (ex_intro _ c Ez)).
    reflexivity.
  - intros H.
    apply andb_prop in H; destruct H as [H Hz].
    apply andb_prop in H; destruct H as [Hx Hy].
    destruct (proj1 (float_to_int_finite round_to _) Hx) as [a Ea].
    destruct (proj1 (float_to_int_finite round_to _) Hy) as [b Eb].
    destruct (proj1 (float_to_int_finite round_to _) Hz) as [c Ec].
    destruct (float_to_int_back round_to round_to Hrt Hrt _ a Ea) as (ga & Ga & _).
    destruct (float_to_int_back round_to round_to Hrt Hrt _ b Eb) as (gb & Gb & _).
    destruct (float_to_int_back round_to round_to Hrt Hrt _ c Ec) as (gc & Gc & _).
    rewrite Ea, Eb, Ec; cbn [mbind].
    unfold Vector3D.new.
    rewrite (init_returns (PyInt a) (PyInt b) (PyInt c) _ ga gb gc Ga Gb Gc).
    eexists; reflexivity.
Qed.

(** What the method returns is left as it is by the method of any of the
    three conversions. *)
Lemma round_components_fixed :
  forall (round_to' : bool -> positive -> Z -> Z) (v r : vobj),
    integer_part round_to' ->
    round_components round_to v = MReturn r ->
    round_components round_to' r = MReturn r.
Proof.
  intros round_to' v r Hrt'; unfold round_components.
  destruct (float_to_int round_to (Vector3D.x v)) as [a| |] eqn:Ex;
    cbn [mbind]; try discriminate.
  destruct (float_to_int round_to (Vector3D.y v)) as [b| |] eqn:Ey;
    cbn [mbind]; try discriminate.
  destruct (float_to_int round_to (Vector3D.z v)) as [c| |] eqn:Ez;
    cbn [mbind]; try discriminate.
  destruct (float_to_int_back round_to round_to' Hrt Hrt' _ a Ex) as (ga & Ga & Ba).
  destruct (float_to_int_back round_to round_to' Hrt Hrt' _ b Ey) as (gb & Gb & Bb).
  destruct (float_to_int_back round_to round_to' Hrt Hrt' _ c Ez) as (gc & Gc & Bc).
  unfold Vector3D.new.
  rewrite (init_returns (PyInt a) (PyInt b) (PyInt c) _ ga gb gc Ga Gb Gc).
  cbn [lift Vector3D.alloc __class__].
  intros H; inversion H; subst r; clear H.
  unfold Vector3D.x, Vector3D.y, Vector3D.z; cbn [_x _y _z].
  rewrite Ba, Bb, Bc; cbn [mbind].
  rewrite (init_returns (PyInt a) (PyInt b) (PyInt c) _ ga gb gc Ga Gb Gc).
  reflexivity.
Qed.

End RoundComponents.

(** X21. [math.floor(v)], [math.ceil(v)] and [math.trunc(v)] return
    exactly when the three components of [v] are finite.  A NaN as first
    component makes each of them raise [ValueError], an infinity
    [OverflowError]. *)
Theorem rounding_returns_iff_finite :
  forall v : vobj,
    ((exists r, Vector3D.__floor__ v = MReturn r) <-> all_finite v = true)
    /\ ((exists r, Vector3D.__ceil__ v = MReturn r) <-> all_finite v = true)
    /\ ((exists r, Vector3D.__trunc__ v = MReturn r) <-> all_finite v = true)
    /\ (Vector3D.x v = nan ->
        Vector3D.__floor__ v
        = MValueError "cannot convert float NaN to integer"
        /\ Vector3D.__ceil__ v
           = MValueError "cannot convert float NaN to integer"
        /\ Vector3D.__trunc__ v
           = MValueError "cannot convert float NaN to integer")
    /\ (Vector3D.x v = infinity \/ Vector3D.x v = neg_infinity ->
        Vector3D.__floor__ v
        = MRaise (OverflowError "cannot convert float infinity to integer")
        /\ Vector3D.__ceil__ v
           = MRaise (OverflowError "cannot convert float infinity to integer")
        /\ Vector3D.__trunc__ v
           = MRaise (OverflowError "cannot convert float infinity to integer")).
Proof.
  intros v.
  split; [exact (round_components_finite _ floor_integer_part v)|].
  split; [exact (round_components_finite _ ceil_integer_part v)|].
  split; [exact (round_components_finite _ trunc_integer_part v)|].
  unfold Vector3D.__floor__, Vector3D.__ceil__, Vector3D.__trunc__,
    math_floor, math_ceil, math_trunc, float_to_int.
  split.
  - intros ->; repeat split.
  - intros [-> | ->]; repeat split.
Qed.

Lemma rounding_returns_iff_finite_witness :
  (exists r, Vector3D.__floor__ (mkV CVector3D 1.5 (-2.5) 0) = MReturn r)
  /\ Vector3D.__trunc__ (mkV CVector3D nan 0 0)
     = MValueError "cannot convert float NaN to integer"
  /\ Vector3D.__ceil__ (mkV CVector3D infinity 0 0)
     = MRaise (OverflowError "cannot convert float infinity to integer").
Proof.
  split; [|split].
  - apply (proj1 (rounding_returns_iff_finite (mkV CVector3D 1.5 (-2.5) 0))).
    reflexivity.
  - apply (proj1 (proj2 (proj2 (proj2
             (rounding_returns_iff_finite (mkV CVector3D nan 0 0))))));
      reflexivity.
  - apply (proj2 (proj2 (proj2 (proj2
             (rounding_returns_iff_finite (mkV CVector3D infinity 0 0))))));
      left; reflexivity.
Defined.

(** X22. A vector returned by [math.floor], [math.ceil] or [math.trunc] is
    a fixed point of the three of them: rounding it again, by any of them,
    returns the same vector. *)
Theorem rounded_vectors_are_fixed_points :
  forall v r : vobj,
    Vector3D.__floor__ v = MReturn r
    \/ Vector3D.__ceil__ v = MReturn r
    \/ Vector3D.__trunc__ v = MReturn r ->
    Vector3D.__floor__ r = MReturn r
    /\ Vector3D.__ceil__ r = MReturn r
    /\ Vector3D.__trunc__ r = MReturn r.
Proof.
  intros v r [H|[H|H]].
  - repeat split.
    + exact (round_components_fixed _ floor_integer_part _ v r floor_integer_part H).
    + exact (round_components_fixed _ floor_integer_part _ v r ceil_integer_part H).
    + exact (round_components_fixed _ floor_integer_part _ v r trunc_integer_part H).
  - repeat split.
    + exact (round_components_fixed _ ceil_integer_part _ v r floor_integer_part H).
    + exact (round_components_fixed _ ceil_integer_part _ v r ceil_integer_part H).
    + exact (round_components_fixed _ ceil_integer_part _ v r trunc_integer_part H).
  - repeat split.
    + exact (round_components_fixed _ trunc_integer_part _ v r floor_integer_part H).
    + exact (round_components_fixed _ trunc_integer_part _ v r ceil_integer_part H).
    + exact (round_components_fixed _ trunc_integer_part _ v r trunc_integer_part H).
Qed.

Lemma rounded_vectors_are_fixed_points_witness :
  Vector3D.__ceil__ (mkV CVector3D 1 (-3) 0) = MReturn (mkV CVector3D 1 (-3) 0).
Proof.
  apply (rounded_vectors_are_fixed_points
           (mkV CRotator3D 1.5 (-2.5) 0) (mkV CVector3D 1 (-3) 0)).
  left; vm_compute; reflexivity.
Defined.

(** ** Degrees and radians after construction *)

Lemma degrees_float :
  forall value f, degrees value f -> float_ value = Return f.
Proof.
  intros [ | b | n | g | s | o | t ] f; cbn; try contradiction.
  - intros [_ H]; exact H.
  - intros ->; reflexivity.
Qed.

(** X23. Only the constructor of [Rotator3D] converts degrees to radians.
    With [np.deg2rad] as in C4, [Rotator3D(a, b, c)] stores
    [float(a) * (pi/180)] as [x], while assigning the same [a] to [x]
    afterwards goes through the setter inherited from [Vector3D] and stores
    [float(a)] itself; the object is still a [Rotator3D] and its other two
    components are kept.  The same holds for [y] and [z]. *)
Theorem rotator_setters_store_unconverted :
  forall np_deg2rad : PyVal -> Result PyVal,
    deg2rad_on_numbers np_deg2rad ->
    forall (a b c : PyVal) (fa fb fc : float),
      degrees a fa -> degrees b fb -> degrees c fc ->
      exists r : vobj,
        Rotator3D.new np_deg2rad a b c = Return r
        /\ Vector3D.x r = (fa * deg2rad_factor)%float
        /\ Vector3D.x_setter r a
           = Return (mkV CRotator3D fa (Vector3D.y r) (Vector3D.z r))
        /\ Vector3D.y_setter r b
           = Return (mkV CRotator3D (Vector3D.x r) fb (Vector3D.z r))
        /\ Vector3D.z_setter r c
           = Return (mkV CRotator3D (Vector3D.x r) (Vector3D.y r) fc).
Proof.
  intros np Hnp a b c fa fb fc Ha Hb Hc.
  unfold Rotator3D.new.
  rewrite (rotator_init_returns np Hnp _ a b c fa fb fc Ha Hb Hc).
  eexists; split; [reflexivity|]; split; [reflexivity|].
  pose proof (degrees_float a fa Ha) as Fa.
  pose proof (degrees_float b fb Hb) as Fb.
  pose proof (degrees_float c fc Hc) as Fc.
  unfold Vector3D.x_setter, Vector3D.y_setter, Vector3D.z_setter.
  rewrite (float_numeric a fa Fa), (float_numeric b fb Fb),
    (float_numeric c fc Fc), Fa, Fb, Fc.
  repeat split.
Qed.

Lemma rotator_setters_store_unconverted_witness :
  exists r : vobj,
    Rotator3D.new np_deg2rad_model (PyInt 180) (PyInt 0) (PyInt 90) = Return r
    /\ Vector3D.x r = NPY_PI
    /\ Vector3D.x_setter r (PyInt 180)
       = Return (mkV CRotator3D 180 0 (NPY_PI / 2)).
Proof.
  destruct (rotator_setters_store_unconverted
              np_deg2rad_model np_deg2rad_model_on_numbers
              (PyInt 180) (PyInt 0) (PyInt 90) 180%float 0%float 90%float)
    as (r & Hr & Hx & Hset & _).
  - cbn; split; [lia | reflexivity].
  - cbn; split; [lia | reflexivity].
  - cbn; split; [lia | reflexivity].
  - exists r; split; [exact Hr|].
    assert (E : r = mkV CRotator3D NPY_PI 0 (NPY_PI / 2)).
    { assert (E : Return r = Return (mkV CRotator3D NPY_PI 0 (NPY_PI / 2)))
        by (rewrite <- Hr; vm_compute; reflexivity).
      inversion E; reflexivity. }
    subst r; split; [reflexivity | exact Hset].
Defined.

(** ** Copies *)

(** X24. Iterating over a vector yields its [len(v) = 3] components in
    the order [x], [y], [z]; rebuilding a vector from them, as
    [Vector3D( *v)] does, and [+v] both return the plain [Vector3D] with
    exactly the components of [v], whatever these are and whatever the
    class of [v]. *)
Theorem unpacking_copies :
  forall v : vobj,
    Z.of_nat (length (Vector3D.__iter__ v)) = Vector3D.__len__ v
    /\ (exists a b c : float,
          Vector3D.__iter__ v = [a; b; c]
          /\ Vector3D.new (PyFloat a) (PyFloat b) (PyFloat c) = Return (copy v))
    /\ Vector3D.__pos__ v = Return (copy v).
Proof.
  intros v; split; [reflexivity|]; split.
  - exists (Vector3D.x v), (Vector3D.y v), (Vector3D.z v).
    split; [reflexivity | apply new_floats].
  - unfold Vector3D.__pos__; apply new_floats.
Qed.

(** ** The zero vector *)

Lemma SFadd_zero_eqb :
  forall x, SFeqb (SFadd prec emax x (S754_zero false)) x = SFeqb x x.
Proof.
  intros [[|]|[|]| |s m e]; reflexivity.
Qed.

Lemma SFsub_zero_eqb :
  forall x, SFeqb (SFsub prec emax x (S754_zero false)) x = SFeqb x x.
Proof.
  intros [[|]|[|]| |s m e]; reflexivity.
Qed.

Lemma float_add_zero_eqb :
  forall x : float, ((x + 0) =? x)%float = (x =? x)%float.
Proof.
  intros x; rewrite !FloatAxioms.eqb_spec, FloatAxioms.add_spec.
  apply SFadd_zero_eqb.
Qed.

Lemma float_sub_zero_eqb :
  forall x : float, ((x - 0) =? x)%float = (x =? x)%float.
Proof.
  intros x; rewrite !FloatAxioms.eqb_spec, FloatAxioms.sub_spec.
  apply SFsub_zero_eqb.
Qed.

(** X25. The zero vector is neutral for [+] and [-] under [==]:
    [v + Vector3D(0, 0, 0) == v] and [v - Vector3D(0, 0, 0) == v] are
    [True] exactly when no component of [v] is a NaN. *)
Theorem zero_vector_is_neutral :
  forall v : vobj,
    exists s d : vobj,
      Vector3D.__add__ v (mkV CVector3D 0 0 0) = Return s
      /\ Vector3D.__sub__ v (mkV CVector3D 0 0 0) = Return d
      /\ (Vector3D.__eq__ s v = true
          <-> Vector3D.x v <> nan /\ Vector3D.y v <> nan /\ Vector3D.z v <> nan)
      /\ (Vector3D.__eq__ d v = true
          <-> Vector3D.x v <> nan /\ Vector3D.y v <> nan /\ Vector3D.z v <> nan).
Proof.
  intros v; rewrite add_returns, sub_returns.
  eexists; eexists; split; [reflexivity|]; split; [reflexivity|].
  unfold Vector3D.__eq__, Vector3D.x, Vector3D.y, Vector3D.z; cbn [_x _y _z].
  rewrite !float_add_zero_eqb, !float_sub_zero_eqb.
  rewrite !andb_true_iff, !float_eqb_refl_iff; tauto.
Qed.
